(** * Authentication subsystem of the LMS backend (backend/core/utils and
    backend/apps/v1/api/auth/services), as a shallow embedding.

    Python exceptions are an explicit [exn] value, the persistence store
    and the clock are threaded through a small state-and-exception monad,
    and every effectful collaborator the services call (SQL statements,
    bcrypt, jose encoding, template rendering, SMTP) is a field of a
    [Backend] record, so that results about error handling can quantify
    over every behaviour of those collaborators. *)

From Stdlib Require Import String Ascii ZArith List Bool Lia.
Import ListNotations.
Open Scope string_scope.
Open Scope Z_scope.

(** ** Python-side values *)

(** Exceptions: FastAPI's [HTTPException(status_code, detail)] and every
    other exception (SQL errors, bcrypt's [ValueError], SMTP errors, ...). *)
Inductive exn :=
| HTTPException (status_code : Z) (detail : string)
| RuntimeError (what : string).

(** JSON values that can appear in a decoded JWT payload. *)
Inductive jval :=
| JStr (s : string)
| JInt (z : Z)
| JBool (b : bool)
| JNull.

(** A decoded JWT payload / a Python [dict] with string keys. *)
Definition payload := list (string * jval).

(** [d.get(k)] *)
Fixpoint py_get (d : payload) (k : string) : option jval :=
  match d with
  | [] => None
  | (k', v) :: d' => if String.eqb k k' then Some v else py_get d' k
  end.

(** [d.update({k: v})]: replaces the value of an existing key in place,
    appends a new key at the end. *)
Fixpoint dict_set (d : payload) (k : string) (v : jval) : payload :=
  match d with
  | [] => [(k, v)]
  | (k', v') :: d' =>
      if String.eqb k k' then (k', v) :: d' else (k', v') :: dict_set d' k v
  end.

(** Python truthiness of an optional value ([not x] is [negb (truthy x)]). *)
Definition truthy (o : option jval) : bool :=
  match o with
  | None => false
  | Some (JStr s) => negb (String.eqb s "")
  | Some (JInt z) => negb (Z.eqb z 0)
  | Some (JBool b) => b
  | Some JNull => false
  end.

(** [str(n)] for a Python [int]. *)
Fixpoint digits_rev (fuel : nat) (n : Z) : string :=
  match fuel with
  | O => ""
  | S f =>
      let d := ascii_of_nat (48 + Z.to_nat (n mod 10)) in
      if n <? 10 then String d ""
      else digits_rev f (n / 10) ++ String d ""
  end.

Definition str_of_Z (z : Z) : string :=
  if z <? 0 then "-" ++ digits_rev (S (Z.to_nat (- z))) (- z)
  else digits_rev (S (Z.to_nat z)) z.

(** [str(v)] for a JSON value. *)
Definition py_str (v : jval) : string :=
  match v with
  | JStr s => s
  | JInt z => str_of_Z z
  | JBool true => "True"
  | JBool false => "False"
  | JNull => "None"
  end.

(** [str.lower()] on ASCII letters. *)
(** A character of a [string] is a code point below 256 (Latin-1).
    [str.lower()] on one: A-Z and the Latin-1 capitals (192-222, except
    the sign 215) move up by 32. *)
Definition lower_ascii (c : ascii) : ascii :=
  let n := nat_of_ascii c in
  if orb (andb (Nat.leb 65 n) (Nat.leb n 90))
         (andb (andb (Nat.leb 192 n) (Nat.leb n 222)) (negb (Nat.eqb n 215)))
  then ascii_of_nat (n + 32) else c.

Fixpoint lower (s : string) : string :=
  match s with
  | EmptyString => EmptyString
  | String c s' => String (lower_ascii c) (lower s')
  end.

(** Whitespace stripped by [str.strip()] among the code points below 256
    ([str.isspace()]): \t, \n, \x0b, \x0c, \r (9-13), the separators
    \x1c-\x1f (28-31), space (32), \x85 (133) and \xa0 (160). *)
Definition is_space (c : ascii) : bool :=
  let n := nat_of_ascii c in
  orb (Nat.eqb n 32)
      (orb (andb (Nat.leb 9 n) (Nat.leb n 13))
           (orb (andb (Nat.leb 28 n) (Nat.leb n 31))
                (orb (Nat.eqb n 133) (Nat.eqb n 160)))).

Fixpoint lstrip (s : string) : string :=
  match s with
  | EmptyString => EmptyString
  | String c s' => if is_space c then lstrip s' else s
  end.

Definition rev_string (s : string) : string :=
  string_of_list_ascii (List.rev (list_ascii_of_string s)).

Definition strip (s : string) : string :=
  rev_string (lstrip (rev_string (lstrip s))).

(** Bytes of [s.encode("utf-8")]: one per code point below 128, two for
    the others below 256. *)
Fixpoint utf8_len (s : string) : nat :=
  match s with
  | EmptyString => 0
  | String c s' => (if Nat.ltb (nat_of_ascii c) 128 then 1 else 2) + utf8_len s'
  end.

(** [email.lower().strip()], the normalisation every workflow applies. *)
Definition normalize_email (e : string) : string := strip (lower e).

(** ** The users table (apps/v1/api/auth/models/model.py) *)

Record User := mkUser {
  id : Z;
  email : string;
  password : string;
  full_name : string;
  refresh_token : option string;
  refresh_token_expires_at : option Z;
  is_active : bool;
  is_verified : bool
}.

(** The state threaded through a request: the rows of [users] and the
    clock read by [datetime.utcnow()] (seconds), plus the next value of the
    autoincrement sequence of [users.id]. *)
Record St := mkSt {
  users : list User;
  now : Z;
  next_id : Z
}.

(** ** State-and-exception monad *)

Inductive res (A : Type) :=
| Ok (a : A)
| Raise (e : exn).
Arguments Ok {A} a.
Arguments Raise {A} e.

Definition M (A : Type) := St -> res A * St.

Definition ret {A} (a : A) : M A := fun st => (Ok a, st).
Definition raise {A} (e : exn) : M A := fun st => (Raise e, st).
Definition bind {A B} (m : M A) (k : A -> M B) : M B :=
  fun st => match m st with
            | (Ok a, st') => k a st'
            | (Raise e, st') => (Raise e, st')
            end.
(** [try: m  except Exception as e: h e] *)
Definition try_catch {A} (m : M A) (h : exn -> M A) : M A :=
  fun st => match m st with
            | (Ok a, st') => (Ok a, st')
            | (Raise e, st') => h e st'
            end.
Definition lift {A} (r : res A) : M A := fun st => (r, st).
Definition utcnow : M Z := fun st => (Ok (now st), st).

Notation "x <- m ;; k" := (bind m (fun x => k))
  (at level 61, m at next level, right associativity).
Notation "m ;;; k" := (bind m (fun _ => k))
  (at level 61, right associativity).

(** ** Constants (core/utils/constant_variable.py, message_variable.py,
    config/env_config.py defaults) *)

Definition HTTP_200_OK := 200.
Definition HTTP_201_CREATED := 201.
Definition HTTP_400_BAD_REQUEST := 400.
Definition HTTP_401_UNAUTHORIZED := 401.
Definition HTTP_403_FORBIDDEN := 403.
Definition HTTP_404_NOT_FOUND := 404.
Definition HTTP_500_INTERNAL_SERVER_ERROR := 500.
Definition STATUS_SUCCESS := "success".
Definition STATUS_FAIL := "fail".

Definition USER_CREATED := "User created successfully".
Definition PASSWORD_CHANGED_SUCCESS :=
  "Password changed successfully. You now have full access to the platform.".
Definition LOGIN_SUCCESS := "Login successful".
Definition REFRESH_TOKEN_SUCCESS := "Token refreshed successfully".
Definition USER_NOT_FOUND := "User not found".
Definition INVALID_EMAIL_OR_PASSWORD := "Invalid email or password".
Definition USER_INACTIVE := "User account is inactive".
Definition USER_ALREADY_EXISTS := "User with this email already exists".
Definition SOMETHING_WENT_WRONG := "Something went wrong, Please try again later!".
Definition INVALID_REFRESH_TOKEN := "Invalid or expired refresh token".
Definition FORGET_PASSWORD_SUCCESS :=
  "Password reset link has been sent to your email address. Please check your inbox.".

Definition JWT_ACCESS_TOKEN_EXPIRE_MINUTES := 30.
Definition JWT_REFRESH_TOKEN_EXPIRE_DAYS := 7.
Definition FRONTEND_URL := "http://localhost:3000".

(** ** StandardResponse (core/utils/standard_response.py) *)

Inductive rdata :=
| STATUS_NULL
| UserAndTokens (user : User) (access_token refresh_token : string)
| TokensOnly (access_token refresh_token : string).

Record StandardResponse := mkResp {
  status : string;
  status_code : Z;
  data : rdata;
  message : string
}.

Definition fail_resp (code : Z) (msg : string) : StandardResponse :=
  mkResp STATUS_FAIL code STATUS_NULL msg.

(** ** Collaborators

    The effectful operations the services call.  [jwt_parse] is the
    signature check and claims parsing of [jose.jwt.decode] with the
    configured key and algorithm (together with its checks of [aud],
    [sub], [jti] and [at_hash]); it yields [None] when the token does not
    verify.  The checks of [iat], [nbf] and [exp] are written out in
    [jwt_decode] below. *)
Record Backend := mkBackend {
  jwt_parse : string -> option payload;
  jwt_encode : payload -> M string;
  (** [bcrypt.hashpw(p.encode("utf-8"), bcrypt.gensalt()).decode("utf-8")] *)
  bcrypt_hashpw : string -> M string;
  (** [bcrypt.checkpw(p.encode("utf-8"), h.encode("utf-8"))] *)
  bcrypt_checkpw : string -> string -> M bool;
  (** [select(Users).where(Users.email == e).limit(1)], [scalar_one_or_none] *)
  select_user_by_email : jval -> M (option User);
  (** [select(Users).where(Users.id == i).limit(1)] *)
  select_user_by_id : Z -> M (option User);
  (** [update(Users).where(Users.id == i).values(password=h)], then commit *)
  update_users_password : Z -> string -> M unit;
  (** [INSERT INTO users] of a new row, returning it *)
  insert_user : string -> string -> string -> bool -> bool -> M User;
  (** [render_email_template("emails/forget_password.html", name=, reset_link=)] *)
  render_email_template : string -> string -> string -> M string;
  (** [send_email(to, subject, body, html=True)] *)
  send_email : string -> string -> string -> M unit
}.

(** Python's [int(v)] on a claim value ([None] when it raises). *)
Definition is_digit (c : ascii) : bool :=
  andb (Nat.leb 48 (nat_of_ascii c)) (Nat.leb (nat_of_ascii c) 57).

Fixpoint parse_digits (s : string) (acc : Z) (prev_digit : bool) : option Z :=
  match s with
  | EmptyString => if prev_digit then Some acc else None
  | String c s' =>
      if is_digit c then
        parse_digits s' (acc * 10 + Z.of_nat (nat_of_ascii c - 48)) true
      else if andb (Ascii.eqb c "_"%char) prev_digit then
        parse_digits s' acc false
      else None
  end.

(** The whitespace [int()] skips around the digits: that of [str.strip()]
    except the separators \x1c-\x1f (28-31). *)
Definition is_int_space (c : ascii) : bool :=
  let n := nat_of_ascii c in
  andb (is_space c) (negb (andb (Nat.leb 28 n) (Nat.leb n 31))).

Fixpoint lstrip_int (s : string) : string :=
  match s with
  | EmptyString => EmptyString
  | String c s' => if is_int_space c then lstrip_int s' else s
  end.

Definition strip_int (s : string) : string :=
  rev_string (lstrip_int (rev_string (lstrip_int s))).

Definition py_int_of_string (s : string) : option Z :=
  match strip_int s with
  | String c r =>
      if Ascii.eqb c "+"%char then parse_digits r 0 false
      else if Ascii.eqb c "-"%char then option_map Z.opp (parse_digits r 0 false)
      else parse_digits (String c r) 0 false
  | EmptyString => None
  end.

Definition py_int (v : jval) : option Z :=
  match v with
  | JStr s => py_int_of_string s
  | JInt z => Some z
  | JBool b => Some (if b then 1 else 0)
  | JNull => None
  end.

Section JWTHandler.
Variable b : Backend.

(** Outcome of [jose.jwt.decode]; [JoseTypeError] is the [TypeError] of
    [int(None)] on a [null] time claim, which jose does not catch. *)
Inductive jose_res :=
| JoseOk (p : payload)
| ExpiredSignatureError
| JWTError
| JoseTypeError.

(** A time claim as jose reads it with [int(claims[k])]. *)
Inductive claim_read :=
| Absent
| IntVal (n : Z)
| BadVal
| NullVal.

Definition read_claim (p : payload) (k : string) : claim_read :=
  match py_get p k with
  | None => Absent
  | Some JNull => NullVal
  | Some v => match py_int v with
              | Some n => IntVal n
              | None => BadVal
              end
  end.

(** [jwt.decode(token, key, algorithms=[alg])] at time [t]: signature and
    claims first, then [_validate_iat], [_validate_nbf] and [_validate_exp]
    in this order.  Each reads its claim with [int(...)]: a value [int]
    refuses with [ValueError] is a claims error ([JWTError]), a [null] one
    raises [TypeError]; [nbf] after now is a [JWTError], [exp] before now
    is [ExpiredSignatureError].  (The checks of [aud], [sub], [jti] and
    [at_hash] are part of [jwt_parse]; jose runs them after these, so on a
    token that fails one of them and has also expired jose reports the
    expiry where this model reports a [JWTError].) *)
Definition jwt_decode (token : string) (t : Z) : jose_res :=
  match jwt_parse b token with
  | None => JWTError
  | Some p =>
      let exp_check :=
        match read_claim p "exp" with
        | Absent => JoseOk p
        | IntVal e => if e <? t then ExpiredSignatureError else JoseOk p
        | BadVal => JWTError
        | NullVal => JoseTypeError
        end in
      let nbf_check :=
        match read_claim p "nbf" with
        | Absent => exp_check
        | IntVal n => if t <? n then JWTError else exp_check
        | BadVal => JWTError
        | NullVal => JoseTypeError
        end in
      match read_claim p "iat" with
      | Absent | IntVal _ => nbf_check
      | BadVal => JWTError
      | NullVal => JoseTypeError
      end
  end.

(** [if token.startswith("Bearer "): token = token[7:]] *)
Definition strip_bearer (token : string) : string :=
  if String.prefix "Bearer " token
  then substring 7 (String.length token - 7) token
  else token.

(** [JWTHandler.verify_token] at clock [t]. *)
Definition verify_token (t : Z) (token : string) : res payload :=
  match jwt_decode (strip_bearer token) t with
  | JoseOk p => Ok p
  | ExpiredSignatureError => Raise (HTTPException 401 "Token has expired")
  | JWTError => Raise (HTTPException 401 "Could not validate credentials")
  | JoseTypeError => Raise (RuntimeError "TypeError: int() argument must be a string, a bytes-like object or a real number, not 'NoneType'")
  end.

(** [JWTHandler.verify_refresh_token] at clock [t].  The wrong-type
    [HTTPException] is raised inside the [try] but is neither an
    [ExpiredSignatureError] nor a [JWTError], so it propagates. *)
Definition verify_refresh_token (t : Z) (token : string) : res payload :=
  match jwt_decode (strip_bearer token) t with
  | JoseOk p =>
      match py_get p "type" with
      | Some (JStr s) =>
          if String.eqb s "refresh" then Ok p
          else Raise (HTTPException 401 "Invalid token type: refresh token required")
      | _ => Raise (HTTPException 401 "Invalid token type: refresh token required")
      end
  | ExpiredSignatureError => Raise (HTTPException 401 "Refresh token has expired")
  | JWTError => Raise (HTTPException 401 "Could not validate refresh token")
  | JoseTypeError => Raise (RuntimeError "TypeError: int() argument must be a string, a bytes-like object or a real number, not 'NoneType'")
  end.

Definition create_access_token (d : payload) : M string :=
  t <- utcnow ;;
  jwt_encode b (dict_set (dict_set d "exp" (JInt (t + 60 * JWT_ACCESS_TOKEN_EXPIRE_MINUTES)))
                         "iat" (JInt t)).

Definition create_refresh_token (d : payload) : M string :=
  t <- utcnow ;;
  jwt_encode b (dict_set (dict_set (dict_set d
                  "exp" (JInt (t + 86400 * JWT_REFRESH_TOKEN_EXPIRE_DAYS)))
                  "iat" (JInt t)) "type" (JStr "refresh")).

Definition create_password_reset_token (d : payload) : M string :=
  t <- utcnow ;;
  jwt_encode b (dict_set (dict_set (dict_set d "exp" (JInt (t + 3600)))
                  "iat" (JInt t)) "type" (JStr "password_reset")).

End JWTHandler.

Section Services.
Variable b : Backend.

(** ** PasswordUtils (core/utils/helper.py) *)

Definition hash_password (pw : string) : M string := bcrypt_hashpw b pw.

(** [verify_password]: [try: return bcrypt.checkpw(...) except Exception:
    return False]. *)
Definition verify_password (plain_password hashed_password : string) : M bool :=
  try_catch (bcrypt_checkpw b plain_password hashed_password)
            (fun _ => ret false).

(** ** Database methods (apps/v1/api/auth/models/methods) *)

Definition get_user_by_email_for_login (e : jval) : M (option User) :=
  select_user_by_email b e.

Definition get_user_by_email_for_password_reset (e : jval) : M (option User) :=
  select_user_by_email b e.

(** [update_user_password]: update, commit, then [scalar_one()] on the
    re-fetched row, which raises when no row is found. *)
Definition update_user_password (user_id : Z) (hashed : string) : M User :=
  update_users_password b user_id hashed ;;;
  r <- select_user_by_id b user_id ;;
  match r with
  | Some u => ret u
  | None => raise (RuntimeError "NoResultFound")
  end.

(** Modelled from the spec: [create_user_method.get_user_by_email], a module
    of this repository absent from the sources; the spec's store operation
    [find_user_by_email(email) -> User?], i.e. the same query by email. *)
Definition get_user_by_email (e : string) : M (option User) :=
  select_user_by_email b (JStr e).

(** Modelled from the spec: [create_user_method.create_user], absent from
    the sources; the spec's store operation [insert_user(fields) -> User]. *)
Definition create_user (e pw name : string) (active verified : bool) : M User :=
  insert_user b e pw name active verified.

Definition token_data (u : User) : payload :=
  [("user_id", JStr (str_of_Z (id u))); ("email", JStr (email u))].

(** ** create_user_service (Register) *)

Definition create_user_body (email_in pw name : string) : M StandardResponse :=
  let e := normalize_email email_in in
  let full_name := strip name in
  existing_user <- get_user_by_email e ;;
  match existing_user with
  | Some _ => ret (fail_resp HTTP_400_BAD_REQUEST USER_ALREADY_EXISTS)
  | None =>
      hashed <- hash_password pw ;;
      new_user <- create_user e hashed full_name true false ;;
      let td := token_data new_user in
      access <- create_access_token b td ;;
      refresh <- create_refresh_token b td ;;
      ret (mkResp STATUS_SUCCESS HTTP_201_CREATED
                  (UserAndTokens new_user access refresh) USER_CREATED)
  end.

Definition create_user_service (email_in pw name : string) : M StandardResponse :=
  try_catch (create_user_body email_in pw name)
            (fun _ => ret (fail_resp HTTP_500_INTERNAL_SERVER_ERROR SOMETHING_WENT_WRONG)).

(** ** login_user_service (Login) *)

Definition login_user_body (email_in pw : string) : M StandardResponse :=
  let e := normalize_email email_in in
  user <- get_user_by_email_for_login (JStr e) ;;
  match user with
  | None => ret (fail_resp HTTP_401_UNAUTHORIZED INVALID_EMAIL_OR_PASSWORD)
  | Some u =>
      if negb (is_active u) then ret (fail_resp HTTP_403_FORBIDDEN USER_INACTIVE) else
      is_password_valid <- verify_password pw (password u) ;;
      if negb is_password_valid
      then ret (fail_resp HTTP_401_UNAUTHORIZED INVALID_EMAIL_OR_PASSWORD) else
      let td := token_data u in
      access <- create_access_token b td ;;
      refresh <- create_refresh_token b td ;;
      ret (mkResp STATUS_SUCCESS HTTP_200_OK (UserAndTokens u access refresh) LOGIN_SUCCESS)
  end.

Definition login_user_service (email_in pw : string) : M StandardResponse :=
  try_catch (login_user_body email_in pw)
            (fun _ => ret (fail_resp HTTP_500_INTERNAL_SERVER_ERROR SOMETHING_WENT_WRONG)).

(** ** refresh_token_service (Refresh) *)

Definition refresh_token_body (tok : string) : M StandardResponse :=
  t <- utcnow ;;
  p <- lift (verify_refresh_token b t tok) ;;
  let user_id := py_get p "user_id" in
  let e := py_get p "email" in
  match e with
  | Some ev =>
      if orb (negb (truthy user_id)) (negb (truthy e))
      then ret (fail_resp HTTP_401_UNAUTHORIZED INVALID_REFRESH_TOKEN) else
      user <- get_user_by_email_for_login ev ;;
      match user with
      | None => ret (fail_resp HTTP_401_UNAUTHORIZED USER_NOT_FOUND)
      | Some u =>
          if negb (is_active u) then ret (fail_resp HTTP_403_FORBIDDEN USER_INACTIVE) else
          let td := token_data u in
          access <- create_access_token b td ;;
          refresh <- create_refresh_token b td ;;
          ret (mkResp STATUS_SUCCESS HTTP_200_OK (TokensOnly access refresh)
                      REFRESH_TOKEN_SUCCESS)
      end
  | None => ret (fail_resp HTTP_401_UNAUTHORIZED INVALID_REFRESH_TOKEN)
  end.

Definition refresh_token_service (tok : string) : M StandardResponse :=
  try_catch (refresh_token_body tok)
            (fun _ => ret (fail_resp HTTP_401_UNAUTHORIZED INVALID_REFRESH_TOKEN)).

(** ** forget_password_service (ForgetPassword) *)

Definition forget_password_ok : StandardResponse :=
  mkResp STATUS_SUCCESS HTTP_200_OK STATUS_NULL FORGET_PASSWORD_SUCCESS.

Definition forget_password_body (email_in : string) : M StandardResponse :=
  let e := normalize_email email_in in
  user <- get_user_by_email_for_password_reset (JStr e) ;;
  match user with
  | None => ret forget_password_ok
  | Some u =>
      if negb (is_active u) then ret forget_password_ok else
      let td := (token_data u ++ [("type", JStr "password_reset")])%list in
      reset_token <- create_password_reset_token b td ;;
      let reset_link := FRONTEND_URL ++ "/reset-password?token=" ++ reset_token in
      let name := if String.eqb (full_name u) "" then email u else full_name u in
      body <- render_email_template b "emails/forget_password.html" name reset_link ;;
      send_email b (email u) "Reset Your Password - University LMS" body ;;;
      ret forget_password_ok
  end.

Definition forget_password_service (email_in : string) : M StandardResponse :=
  try_catch (forget_password_body email_in)
            (fun _ => ret (fail_resp HTTP_500_INTERNAL_SERVER_ERROR SOMETHING_WENT_WRONG)).

(** ** reset_password_service (ResetPassword) *)

Definition reset_password_body (reset_token new_password : string) : M StandardResponse :=
  verified <- try_catch (t <- utcnow ;; p <- lift (verify_token b t reset_token) ;; ret (inl p))
                        (fun _ => ret (inr (fail_resp HTTP_400_BAD_REQUEST INVALID_REFRESH_TOKEN))) ;;
  match verified with
  | inr r => ret r
  | inl p =>
      match py_get p "type" with
      | Some (JStr "password_reset") =>
          let user_id := py_get p "user_id" in
          let e := py_get p "email" in
          match user_id, e with
          | Some uid, Some ev =>
              if orb (negb (truthy user_id)) (negb (truthy e))
              then ret (fail_resp HTTP_400_BAD_REQUEST INVALID_REFRESH_TOKEN) else
              user <- get_user_by_email_for_password_reset ev ;;
              match user with
              | None => ret (fail_resp HTTP_404_NOT_FOUND USER_NOT_FOUND)
              | Some u =>
                  if negb (String.eqb (str_of_Z (id u)) (py_str uid))
                  then ret (fail_resp HTTP_400_BAD_REQUEST INVALID_REFRESH_TOKEN) else
                  if negb (is_active u) then ret (fail_resp HTTP_403_FORBIDDEN USER_INACTIVE) else
                  hashed <- hash_password new_password ;;
                  update_user_password (id u) hashed ;;;
                  ret (mkResp STATUS_SUCCESS HTTP_200_OK STATUS_NULL PASSWORD_CHANGED_SUCCESS)
              end
          | _, _ => ret (fail_resp HTTP_400_BAD_REQUEST INVALID_REFRESH_TOKEN)
          end
      | _ => ret (fail_resp HTTP_400_BAD_REQUEST INVALID_REFRESH_TOKEN)
      end
  end.

Definition reset_password_service (reset_token new_password : string) : M StandardResponse :=
  try_catch (reset_password_body reset_token new_password)
            (fun _ => ret (fail_resp HTTP_500_INTERNAL_SERVER_ERROR SOMETHING_WENT_WRONG)).

(** ** get_current_user (core/utils/auth_dependencies.py) *)

Definition get_current_user_body (credentials : string) : M User :=
  t <- utcnow ;;
  p <- lift (verify_token b t credentials) ;;
  let user_id := py_get p "user_id" in
  match user_id with
  | Some uid =>
      if negb (truthy user_id)
      then raise (HTTPException 401 "Invalid token: no user_id found") else
      match py_int uid with
      | None => raise (HTTPException 401 "Invalid token: invalid user_id format")
      | Some user_id_int =>
          (* [select(Users).options(selectinload(Users.role))]: the model
             [Users] (apps/v1/api/auth/models/model.py) maps no [role], so
             evaluating [Users.role] raises before any query is sent; the
             lookup by [user_id_int] and the "User not found" branch after
             it are never reached. *)
          raise (RuntimeError "AttributeError: type object 'Users' has no attribute 'role'")
      end
  | None => raise (HTTPException 401 "Invalid token: no user_id found")
  end.

(** [except HTTPException: raise] / [except Exception: raise HTTPException(401)]. *)
Definition get_current_user (credentials : string) : M User :=
  try_catch (get_current_user_body credentials)
            (fun ex => match ex with
                       | HTTPException _ _ => raise ex
                       | RuntimeError _ => raise (HTTPException 401 "Could not validate credentials")
                       end).

End Services.

(** ** The backend over an in-memory [users] table

    The SQL statements over [St]; bcrypt, jose's signing, the template file
    and the SMTP relay are parameters ([bcrypt_check] yields [None] where
    [bcrypt.checkpw] raises, e.g. on a malformed hash or a password over 72
    bytes; [template] yields
    [None] where the template file is missing; [smtp_ok] says whether the
    relay accepts a message). [bcrypt.hashpw] (bcrypt 5, the project pins
    no version) raises [ValueError] on a password of more than 72 bytes. *)
Section DbBackend.
Variable jwt_parse_k : string -> option payload.
Variable jwt_sign : payload -> string.
Variable bcrypt_hash : string -> string.
Variable bcrypt_check : string -> string -> option bool.
Variable template : string -> string -> string -> option string.
Variable smtp_ok : string -> string -> string -> bool.

Definition find_by_email (us : list User) (e : string) : option User :=
  find (fun u => String.eqb (email u) e) us.

Definition find_by_id (us : list User) (i : Z) : option User :=
  find (fun u => Z.eqb (id u) i) us.

(** [Users.email == :e] on a [String(255)] column; a non-string parameter is
    refused by the database driver. *)
Definition db_select_user_by_email (key : jval) : M (option User) :=
  fun st => match key with
            | JStr s => (Ok (find_by_email (users st) s), st)
            | _ => (Raise (RuntimeError "DataError: invalid input for query argument"), st)
            end.

Definition db_select_user_by_id (i : Z) : M (option User) :=
  fun st => (Ok (find_by_id (users st) i), st).

Definition set_password (h : string) (u : User) : User :=
  mkUser (id u) (email u) h (full_name u) (refresh_token u)
         (refresh_token_expires_at u) (is_active u) (is_verified u).

Definition db_update_users_password (i : Z) (h : string) : M unit :=
  fun st => (Ok tt, mkSt (map (fun u => if Z.eqb (id u) i then set_password h u else u)
                              (users st))
                         (now st) (next_id st)).

(** Insert with the [unique=True] constraint on [email]; the new row gets
    the next id of the sequence and the column defaults elsewhere. *)
Definition db_insert_user (e pw name : string) (active verified : bool) : M User :=
  fun st =>
    if existsb (fun u => String.eqb (email u) e) (users st)
    then (Raise (RuntimeError "IntegrityError: duplicate key value violates unique constraint"), st)
    else let u := mkUser (next_id st) e pw name None None active verified in
         (Ok u, mkSt (users st ++ [u]) (now st) (next_id st + 1)).

Definition db_backend : Backend :=
  mkBackend
    jwt_parse_k
    (fun p => ret (jwt_sign p))
    (fun pw => if Nat.ltb 72 (utf8_len pw)
               then raise (RuntimeError "ValueError: password cannot be longer than 72 bytes")
               else ret (bcrypt_hash pw))
    (fun pw h => match bcrypt_check pw h with
                 | Some ok => ret ok
                 | None => raise (RuntimeError "ValueError: Invalid salt")
                 end)
    db_select_user_by_email
    db_select_user_by_id
    db_update_users_password
    db_insert_user
    (fun path name link => match template path name link with
                           | Some s => ret s
                           | None => raise (RuntimeError "FileNotFoundError: Template not found")
                           end)
    (fun to subj body => if smtp_ok to subj body then ret tt
                         else raise (RuntimeError "SMTPException")).

End DbBackend.

(** ** Claims written by the token factories of [JWTHandler] *)

Definition access_claims (d : payload) (t : Z) : payload :=
  dict_set (dict_set d "exp" (JInt (t + 60 * JWT_ACCESS_TOKEN_EXPIRE_MINUTES))) "iat" (JInt t).

Definition refresh_claims (d : payload) (t : Z) : payload :=
  dict_set (dict_set (dict_set d "exp" (JInt (t + 86400 * JWT_REFRESH_TOKEN_EXPIRE_DAYS)))
                     "iat" (JInt t)) "type" (JStr "refresh").

Definition reset_claims (d : payload) (t : Z) : payload :=
  dict_set (dict_set (dict_set d "exp" (JInt (t + 3600))) "iat" (JInt t))
           "type" (JStr "password_reset").

(** [JWTHandler.get_user_id_from_token] at clock [t]. *)
Definition get_user_id_from_token (b : Backend) (t : Z) (token : string) : res jval :=
  match verify_token b t token with
  | Raise e => Raise e
  | Ok p =>
      match py_get p "user_id" with
      | Some v => if truthy (Some v) then Ok v
                  else Raise (HTTPException 401 "Invalid token: no user_id found")
      | None => Raise (HTTPException 401 "Invalid token: no user_id found")
      end
  end.

(** [JWTHandler.get_user_email_from_token] at clock [t]. *)
Definition get_user_email_from_token (b : Backend) (t : Z) (token : string) : res jval :=
  match verify_token b t token with
  | Raise e => Raise e
  | Ok p =>
      match py_get p "email" with
      | Some v => if truthy (Some v) then Ok v
                  else Raise (HTTPException 401 "Invalid token: no email found")
      | None => Raise (HTTPException 401 "Invalid token: no email found")
      end
  end.

(** ** StandardResponse.make (core/utils/standard_response.py)

    The JSON response the views return: [make] recomputes the envelope's
    [status] from [status_code] (no pagination, errors or cookies are set
    by the auth services). *)
Record JSONResponse := mkJSON {
  json_status_code : Z;
  json_status : string;
  json_data : rdata;
  json_message : string
}.

Definition success_code (c : Z) : bool := orb (Z.eqb c 201) (Z.eqb c 200).

Definition make (r : StandardResponse) : JSONResponse :=
  mkJSON (status_code r)
         (if success_code (status_code r) then STATUS_SUCCESS else STATUS_FAIL)
         (data r) (message r).

(** ** check_permission (core/utils/auth_dependencies.py)

    Python objects as far as [permission_checker] inspects them: attribute
    lookup on an object, [getattr(o, k, None)] on anything else. *)
#[warnings="-register-all"]
Inductive pyobj :=
| OStr (s : string)
| OInt (z : Z)
| OBool (b : bool)
| ONone
| OObj (attrs : list (string * pyobj)).

(** The attribute [k] of [o], [None] when [o] has no such attribute. *)
Definition getattr_opt (o : pyobj) (k : string) : option pyobj :=
  match o with
  | OObj attrs =>
      (fix go (l : list (string * pyobj)) : option pyobj :=
         match l with
         | [] => None
         | (k', v) :: l' => if String.eqb k k' then Some v else go l'
         end) attrs
  | _ => None
  end.

(** [getattr(o, k, None)] *)
Definition getattr_default (o : pyobj) (k : string) : pyobj :=
  match getattr_opt o k with Some v => v | None => ONone end.

Definition obj_truthy (o : pyobj) : bool :=
  match o with
  | OStr s => negb (String.eqb s "")
  | OInt z => negb (Z.eqb z 0)
  | OBool b => b
  | ONone => false
  | OObj _ => true
  end.

Definition AttributeError : exn := RuntimeError "AttributeError".

(** A Users row as a Python object: its mapped columns (model.py and
    TimestampMixin); the timestamps are datetime objects. *)
Definition opt_str (o : option string) : pyobj :=
  match o with Some s => OStr s | None => ONone end.
Definition opt_datetime (o : option Z) : pyobj :=
  match o with Some z => OObj [] | None => ONone end.

Definition user_obj (u : User) : pyobj :=
  OObj [("id", OInt (id u)); ("email", OStr (email u)); ("password", OStr (password u));
        ("full_name", OStr (full_name u)); ("refresh_token", opt_str (refresh_token u));
        ("refresh_token_expires_at", opt_datetime (refresh_token_expires_at u));
        ("is_active", OBool (is_active u)); ("is_verified", OBool (is_verified u));
        ("created_at", OObj []); ("updated_at", OObj []); ("deleted_at", ONone)].

Definition PERMISSION_ROLE_MAP : list (string * list string) :=
  [("product_read", ["management"; "sales"; "staff"; "admin"]);
   ("product_create", ["management"; "admin"]);
   ("product_update", ["management"; "admin"]);
   ("product_delete", ["management"; "admin"]);
   ("product_category_read", ["management"; "sales"; "staff"; "admin"]);
   ("supplier_read", ["management"; "sales"; "staff"; "admin"]);
   ("supplier_create", ["management"; "admin"]);
   ("supplier_update", ["management"; "admin"]);
   ("supplier_delete", ["management"; "admin"])].

Fixpoint map_get (m : list (string * list string)) (k : string) : option (list string) :=
  match m with
  | [] => None
  | (k', v) :: m' => if String.eqb k k' then Some v else map_get m' k
  end.

Definition str_in (s : string) (l : list string) : bool :=
  existsb (fun x => String.eqb s x) l.

(** The f-strings of the log calls read [current_user.email]. *)
Definition with_email (cu : pyobj) (r : res pyobj) : res pyobj :=
  match getattr_opt cu "email" with
  | Some _ => r
  | None => Raise AttributeError
  end.

Definition permission_denied (perm : string) : exn :=
  HTTPException 403 ("Access denied: Permission '" ++ perm ++ "' required").

Definition permission_checker_body (perm : string) (cu : pyobj) : res pyobj :=
  match getattr_opt cu "role_id" with
  | None => Raise AttributeError
  | Some rid =>
      if negb (obj_truthy rid)
      then with_email cu (Raise (HTTPException 403 "Access denied: No role assigned")) else
      let role_name := getattr_default (getattr_default cu "role") "name" in
      if negb (obj_truthy role_name)
      then with_email cu (Raise (HTTPException 403 "Access denied: Invalid role")) else
      match role_name with
      | OStr rn =>
          let role_name_lower := lower rn in
          with_email cu
            (if str_in role_name_lower ["management"; "admin"] then Ok cu else
             match map_get PERMISSION_ROLE_MAP perm with
             | Some allowed =>
                 if andb (negb (match allowed with [] => true | _ => false end))
                         (str_in role_name_lower allowed)
                 then Ok cu else Raise (permission_denied perm)
             | None => Raise (permission_denied perm)
             end)
      | _ => Raise AttributeError
      end
  end.

(** [except HTTPException: raise] / [except Exception: raise 403]. *)
Definition permission_checker (perm : string) (cu : pyobj) : res pyobj :=
  match permission_checker_body perm cu with
  | Ok u => Ok u
  | Raise (HTTPException c d) => Raise (HTTPException c d)
  | Raise (RuntimeError _) =>
      Raise (HTTPException 403 "Access denied: Could not verify permissions")
  end.

(** ** TypeCoercion (core/utils/helper.py) *)

(** The values [coerce_bool] and [coerce_str] distinguish: [None], [bool],
    [int], [str], and any other object, with its [str()] and truthiness
    (floats are not represented). *)
Inductive pyval :=
| VNone
| VBool (b : bool)
| VInt (z : Z)
| VStr (s : string)
| VOther (repr : string) (truth : bool).





Definition coerce_str (value : pyval) (default : option string) : option string :=
  match value with
  | VNone => default
  | VStr "" => default
  | VStr s => if String.eqb (strip s) "" then default else Some (strip s)
  | VBool b => if b then Some "True" else default
  | VInt z => if Z.eqb z 0 then default else Some (str_of_Z z)
  | VOther r t => if t then Some r else default
  end.

(** The verifier accepts exactly the claims the signer signed. *)
Definition round_trips (b : Backend) : Prop :=
  forall p s tok s', jwt_encode b p s = (Ok tok, s') -> jwt_parse b (strip_bearer tok) = Some p.

Definition jval_eqb (x y : jval) : bool :=
  match x, y with
  | JStr a, JStr a' => String.eqb a a'
  | JInt a, JInt a' => Z.eqb a a'
  | JBool a, JBool a' => Bool.eqb a a'
  | JNull, JNull => true
  | _, _ => false
  end.

Fixpoint payload_eqb (p q : payload) : bool :=
  match p, q with
  | [], [] => true
  | (k, v) :: p', (k', v') :: q' =>
      andb (String.eqb k k') (andb (jval_eqb v v') (payload_eqb p' q'))
  | _, _ => false
  end.

(** A response as the views send it: [make] keeps the status the service
    chose, and the status code is one the services use. *)
Definition known_code (c : Z) : bool :=
  existsb (Z.eqb c) [HTTP_200_OK; HTTP_201_CREATED; HTTP_400_BAD_REQUEST;
                     HTTP_401_UNAUTHORIZED; HTTP_403_FORBIDDEN; HTTP_404_NOT_FOUND;
                     HTTP_500_INTERNAL_SERVER_ERROR].

Definition well_formed_resp (r : StandardResponse) : Prop :=
  json_status (make r) = status r /\ known_code (status_code r) = true.

(** Every value [m] returns normally satisfies [P]. *)
Definition yields {A} (P : A -> Prop) (m : M A) : Prop :=
  forall st a st', m st = (Ok a, st') -> P a.

(** ** A concrete instance, used for examples *)

Definition demo_user_id1 : User :=
  mkUser 1 "ann@b.com" "$2b$hash:Secret123!" "Ann" None None true false.
Definition demo_inactive : User :=
  mkUser 2 "bob@b.com" "$2b$hash:pw" "Bob" None None false false.
Definition demo_st : St := mkSt [demo_user_id1; demo_inactive] 1000 3.

(** A toy token format: the "signature" is the prefix [signed.]; any other
    string fails verification. *)
Definition demo_claims (kind : string) (uid em : string) : payload :=
  ([("user_id", JStr uid); ("email", JStr em); ("exp", JInt 5000); ("iat", JInt 900)]
  ++ (if String.eqb kind "access" then [] else [("type", JStr kind)]))%list.

Definition demo_parse (tok : string) : option payload :=
  if String.eqb tok "signed.refresh.1" then Some (demo_claims "refresh" "1" "ann@b.com")
  else if String.eqb tok "signed.access.1" then Some (demo_claims "access" "1" "ann@b.com")
  else if String.eqb tok "signed.reset.1" then Some (demo_claims "password_reset" "1" "ann@b.com")
  else if String.eqb tok "signed.reset.2" then Some (demo_claims "password_reset" "2" "bob@b.com")
  else if String.eqb tok "signed.refresh.2" then Some (demo_claims "refresh" "2" "bob@b.com")
  else if String.eqb tok "signed.reset.bad" then Some (demo_claims "password_reset" "7" "ann@b.com")
  else None.

Definition demo_sign (p : payload) : string :=
  match py_get p "type" with
  | Some (JStr k) => "signed." ++ k
  | _ => "signed.access"
  end.

Definition demo_hash (pw : string) : string := "$2b$hash:" ++ pw.

Definition demo_check (pw h : string) : option bool :=
  if String.prefix "$2b$" h then Some (String.eqb h (demo_hash pw)) else None.

Definition demo_template (path name link : string) : option string :=
  Some (name ++ ":" ++ link).

Definition demo_smtp (to subject body : string) : bool := true.


Definition demo_backend : Backend :=
  db_backend demo_parse demo_sign demo_hash demo_check demo_template demo_smtp.

(** The demo backend with the database unreachable for email lookups. *)
Definition demo_down_backend : Backend :=
  mkBackend (jwt_parse demo_backend) (jwt_encode demo_backend)
            (bcrypt_hashpw demo_backend) (bcrypt_checkpw demo_backend)
            (fun _ => raise (RuntimeError "OperationalError: connection refused"))
            (select_user_by_id demo_backend) (update_users_password demo_backend)
            (insert_user demo_backend) (render_email_template demo_backend)
            (send_email demo_backend).

(** The demo backend with a signer for the one payload [p0]: it signs
    [p0] as ["jwt.p0"] and fails on any other payload. *)
Definition single_signer (p0 : payload) : Backend :=
  mkBackend (fun tok => if String.eqb tok "jwt.p0" then Some p0 else None)
            (fun p s => if payload_eqb p p0 then (Ok "jwt.p0", s)
                        else (Raise (RuntimeError "JWTError"), s))
            (bcrypt_hashpw demo_backend) (bcrypt_checkpw demo_backend)
            (select_user_by_email demo_backend)
            (select_user_by_id demo_backend) (update_users_password demo_backend)
            (insert_user demo_backend) (render_email_template demo_backend)
            (send_email demo_backend).

(** A workflow [svc] built from [body] always returns a response, and
    returns [r] whenever [body] raises. *)
Definition catch_all_maps (body svc : M StandardResponse) (r : StandardResponse) : Prop :=
  (forall st, exists r' st', svc st = (Ok r', st')) /\
  (forall st e st', body st = (Raise e, st') -> svc st = (Ok r, st')).

Definition internal_error_resp : StandardResponse :=
  fail_resp HTTP_500_INTERNAL_SERVER_ERROR SOMETHING_WENT_WRONG.

(** * Properties *)

Lemma try_catch_const (body : M StandardResponse) (r : StandardResponse) :
  catch_all_maps body (try_catch body (fun _ => ret r)) r.
Proof.
  split.
  - intro st. unfold try_catch, ret.
    destruct (body st) as [[a | e] st']; eauto.
  - intros st e st' H. unfold try_catch, ret. rewrite H. reflexivity.
Qed.




(** C2 (counterexample): when the database fails during the Refresh
    workflow, the workflow returns 401 "Invalid or expired refresh token",
    not the 500 InternalError response. *)
Lemma refresh_internal_error_not_500 :
  fst (refresh_token_body demo_down_backend "signed.refresh.1" demo_st)
    = Raise (RuntimeError "OperationalError: connection refused")
  /\ fst (refresh_token_service demo_down_backend "signed.refresh.1" demo_st)
       = Ok (fail_resp HTTP_401_UNAUTHORIZED INVALID_REFRESH_TOKEN)
  /\ fail_resp HTTP_401_UNAUTHORIZED INVALID_REFRESH_TOKEN <> internal_error_resp.
Proof.
  split; [vm_compute; reflexivity|]. split; [vm_compute; reflexivity|].
  discriminate.
Qed.

(** C2 (amended): every workflow catches every exception raised inside
    it and never lets one escape; Register, Login, ForgetPassword and
    ResetPassword map it to 500 with the fixed generic message, Refresh
    maps it to 401 with the fixed message "Invalid or expired refresh
    token". *)
Theorem workflows_catch_all (b : Backend) (e pw name tok new_pw : string) :
  catch_all_maps (create_user_body b e pw name) (create_user_service b e pw name)
                 internal_error_resp
  /\ catch_all_maps (login_user_body b e pw) (login_user_service b e pw) internal_error_resp
  /\ catch_all_maps (forget_password_body b e) (forget_password_service b e)
                    internal_error_resp
  /\ catch_all_maps (reset_password_body b tok new_pw) (reset_password_service b tok new_pw)
                    internal_error_resp
  /\ catch_all_maps (refresh_token_body b tok) (refresh_token_service b tok)
                    (fail_resp HTTP_401_UNAUTHORIZED INVALID_REFRESH_TOKEN).
Proof.
  split; [apply try_catch_const|].
  split; [apply try_catch_const|].
  split; [apply try_catch_const|].
  split; apply try_catch_const.
Qed.

(** C8: [verify_password] always returns a boolean: [False] whenever
    [bcrypt.checkpw] raises (malformed hash, unknown algorithm identifier,
    any internal error), [checkpw]'s answer otherwise. *)
Theorem verify_password_total (b : Backend) (plain hashed : string) (st : St) :
  (exists v st', verify_password b plain hashed st = (Ok v, st'))
  /\ (forall e st', bcrypt_checkpw b plain hashed st = (Raise e, st') ->
                    verify_password b plain hashed st = (Ok false, st'))
  /\ (forall v st', bcrypt_checkpw b plain hashed st = (Ok v, st') ->
                    verify_password b plain hashed st = (Ok v, st')).
Proof.
  unfold verify_password, try_catch, ret.
  split; [|split].
  - destruct (bcrypt_checkpw b plain hashed st) as [[v | e] st']; eauto.
  - intros e st' H. rewrite H. reflexivity.
  - intros v st' H. rewrite H. reflexivity.
Qed.

(** ** Properties over the database backend *)
Section DbProps.
Variable jp : string -> option payload.
Variable js : payload -> string.
Variable bh : string -> string.
Variable bc : string -> string -> option bool.
Variable tp : string -> string -> string -> option string.
Variable so : string -> string -> string -> bool.

Definition dbB : Backend := db_backend jp js bh bc tp so.

Lemma db_lookup_email (s : string) (st : St) :
  select_user_by_email dbB (JStr s) st = (Ok (find_by_email (users st) s), st).
Proof. reflexivity. Qed.

Lemma db_verify_password (pw h : string) (st : St) :
  verify_password dbB pw h st
  = (Ok (match bc pw h with Some v => v | None => false end), st).
Proof.
  unfold verify_password, try_catch. simpl. destruct (bc pw h); reflexivity.
Qed.

Lemma login_unknown_email (e pw : string) (st : St)
  (H : find_by_email (users st) (normalize_email e) = None) :
  login_user_service dbB e pw st
  = (Ok (fail_resp HTTP_401_UNAUTHORIZED INVALID_EMAIL_OR_PASSWORD), st).
Proof.
  unfold login_user_service, login_user_body, try_catch, bind, get_user_by_email_for_login.
  rewrite db_lookup_email, H. reflexivity.
Qed.

Lemma login_inactive_user (e pw : string) (st : St) (u : User)
  (H : find_by_email (users st) (normalize_email e) = Some u)
  (Hin : is_active u = false) :
  login_user_service dbB e pw st
  = (Ok (fail_resp HTTP_403_FORBIDDEN USER_INACTIVE), st).
Proof.
  unfold login_user_service, login_user_body, try_catch, bind, get_user_by_email_for_login.
  rewrite db_lookup_email, H, Hin. reflexivity.
Qed.

Lemma login_wrong_password (e pw : string) (st : St) (u : User)
  (H : find_by_email (users st) (normalize_email e) = Some u)
  (Ha : is_active u = true)
  (Hpw : bc pw (password u) <> Some true) :
  login_user_service dbB e pw st
  = (Ok (fail_resp HTTP_401_UNAUTHORIZED INVALID_EMAIL_OR_PASSWORD), st).
Proof.
  unfold login_user_service, login_user_body, try_catch, bind, get_user_by_email_for_login.
  rewrite db_lookup_email, H, Ha. cbn beta iota delta [negb].
  rewrite db_verify_password.
  destruct (bc pw (password u)) as [[|]|]; [congruence | reflexivity | reflexivity].
Qed.

(** C3: Login with an email that matches no user and Login with the email
    of an active user and a password that fails verification return the
    same response, 401 "Invalid email or password". *)
Theorem login_anti_enumeration (st : St) (e1 pw1 e2 pw2 : string) (u : User)
  (H1 : find_by_email (users st) (normalize_email e1) = None)
  (H2 : find_by_email (users st) (normalize_email e2) = Some u)
  (Ha : is_active u = true)
  (Hpw : bc pw2 (password u) <> Some true) :
  fst (login_user_service dbB e1 pw1 st)
    = Ok (fail_resp HTTP_401_UNAUTHORIZED INVALID_EMAIL_OR_PASSWORD)
  /\ fst (login_user_service dbB e2 pw2 st) = fst (login_user_service dbB e1 pw1 st).
Proof.
  rewrite (login_unknown_email e1 pw1 st H1), (login_wrong_password e2 pw2 st u H2 Ha Hpw).
  split; reflexivity.
Qed.

(** C9: Login checks the active flag before the password: for an inactive
    user and any password the response is 403 "User account is inactive",
    which differs from the 401 "Invalid email or password" of an unknown
    email. *)
Theorem login_inactive_observable (st : St) (e pw e' pw' : string) (u : User)
  (H : find_by_email (users st) (normalize_email e) = Some u)
  (Hin : is_active u = false)
  (H' : find_by_email (users st) (normalize_email e') = None) :
  fst (login_user_service dbB e pw st)
    = Ok (fail_resp HTTP_403_FORBIDDEN USER_INACTIVE)
  /\ fst (login_user_service dbB e' pw' st)
    = Ok (fail_resp HTTP_401_UNAUTHORIZED INVALID_EMAIL_OR_PASSWORD)
  /\ fst (login_user_service dbB e pw st) <> fst (login_user_service dbB e' pw' st).
Proof.
  rewrite (login_inactive_user e pw st u H Hin), (login_unknown_email e' pw' st H').
  split; [reflexivity|]. split; [reflexivity|]. simpl. discriminate.
Qed.


Lemma find_map_preserving (P : User -> bool) (f : User -> User) (l : list User)
  (Hf : forall x, P (f x) = P x) :
  find P (map f l) = option_map f (find P l).
Proof.
  induction l as [|x l IH]; simpl; [reflexivity|].
  rewrite Hf. destruct (P x); [reflexivity | exact IH].
Qed.

Lemma find_app_none (P : User -> bool) (l l' : list User) (H : find P l = None) :
  find P (l ++ l') = find P l'.
Proof.
  induction l as [|x l IH]; simpl in *; [reflexivity|].
  destruct (P x); [discriminate | exact (IH H)].
Qed.

Lemma verify_token_ok (b : Backend) (t : Z) (tok : string) (p : payload)
  (H : jwt_decode b (strip_bearer tok) t = JoseOk p) :
  verify_token b t tok = Ok p.
Proof. unfold verify_token. rewrite H. reflexivity. Qed.

Lemma verify_refresh_ok (b : Backend) (t : Z) (tok : string) (p : payload)
  (H : jwt_decode b (strip_bearer tok) t = JoseOk p)
  (Ht : py_get p "type" = Some (JStr "refresh")) :
  verify_refresh_token b t tok = Ok p.
Proof. unfold verify_refresh_token. rewrite H, Ht. reflexivity. Qed.

Lemma nonempty_truthy (e : string) (H : e <> "") : truthy (Some (JStr e)) = true.
Proof. simpl. apply String.eqb_neq in H. rewrite H. reflexivity. Qed.

(** The state after [update_user_password i h]. *)
Definition reset_state (st : St) (i : Z) (h : string) : St :=
  mkSt (map (fun u => if Z.eqb (id u) i then set_password h u else u) (users st))
       (now st) (next_id st).

Definition password_changed_resp : StandardResponse :=
  mkResp STATUS_SUCCESS HTTP_200_OK STATUS_NULL PASSWORD_CHANGED_SUCCESS.

(** ResetPassword on a verified, unexpired password-reset token whose
    [email] claim resolves to [u]: the cross-check, the active gate, and
    otherwise the password update, unless bcrypt refuses the new password
    (over 72 bytes) and the workflow answers 500. *)
Lemma reset_password_resolved (tok np : string) (st : St) (p : payload)
  (uid : jval) (e : string) (u : User)
  (Hdec : jwt_decode dbB (strip_bearer tok) (now st) = JoseOk p)
  (Hty : py_get p "type" = Some (JStr "password_reset"))
  (Huid : py_get p "user_id" = Some uid) (Htr : truthy (Some uid) = true)
  (Hem : py_get p "email" = Some (JStr e)) (Hne : e <> "")
  (Hfind : find_by_email (users st) e = Some u) :
  reset_password_service dbB tok np st
  = if negb (String.eqb (str_of_Z (id u)) (py_str uid))
    then (Ok (fail_resp HTTP_400_BAD_REQUEST INVALID_REFRESH_TOKEN), st)
    else if negb (is_active u)
    then (Ok (fail_resp HTTP_403_FORBIDDEN USER_INACTIVE), st)
    else if Nat.ltb 72 (utf8_len np)
    then (Ok internal_error_resp, st)
    else (Ok password_changed_resp, reset_state st (id u) (bh np)).
Proof.
  unfold reset_password_service, reset_password_body, try_catch, bind, utcnow, lift, ret.
  rewrite (verify_token_ok dbB (now st) tok p Hdec).
  cbn beta iota zeta.
  rewrite Hty, Huid, Hem, Htr, (nonempty_truthy e Hne). cbn beta iota delta [negb orb].
  unfold get_user_by_email_for_password_reset. rewrite db_lookup_email, Hfind.
  cbn beta iota.
  destruct (negb (String.eqb (str_of_Z (id u)) (py_str uid))); [reflexivity|].
  destruct (negb (is_active u)); [reflexivity|].
  unfold hash_password. cbn [bcrypt_hashpw dbB db_backend].
  destruct (Nat.ltb 72 (utf8_len np)); [reflexivity|].
  unfold update_user_password. cbn.
  apply find_some in Hfind. destruct Hfind as [Hin _].
  rewrite (find_map_preserving (fun x => Z.eqb (id x) (id u))).
  - destruct (find (fun x => Z.eqb (id x) (id u)) (users st)) eqn:Hf.
    + reflexivity.
    + exfalso. pose proof (find_none _ _ Hf u Hin) as Hc. simpl in Hc.
      rewrite Z.eqb_refl in Hc. discriminate.
  - intro x. cbv beta. destruct (Z.eqb (id x) (id u)) eqn:E; simpl; rewrite E; reflexivity.
Qed.


Lemma refresh_resolved_inactive (tok : string) (st : St) (p : payload) (e : string) (u : User)
  (Hdec : jwt_decode dbB (strip_bearer tok) (now st) = JoseOk p)
  (Hty : py_get p "type" = Some (JStr "refresh"))
  (Htr : truthy (py_get p "user_id") = true)
  (Hem : py_get p "email" = Some (JStr e)) (Hne : e <> "")
  (Hfind : find_by_email (users st) e = Some u)
  (Hin : is_active u = false) :
  refresh_token_service dbB tok st = (Ok (fail_resp HTTP_403_FORBIDDEN USER_INACTIVE), st).
Proof.
  unfold refresh_token_service, refresh_token_body, try_catch, bind, utcnow, lift, ret.
  rewrite (verify_refresh_ok dbB (now st) tok p Hdec Hty).
  cbn beta iota zeta.
  rewrite Hem, Htr, (nonempty_truthy e Hne). cbn beta iota delta [negb orb].
  unfold get_user_by_email_for_login. rewrite db_lookup_email, Hfind, Hin.
  reflexivity.
Qed.

Lemma append_char_nonempty (s : string) (c : ascii) : (s ++ String c "")%string <> "".
Proof. destruct s; discriminate. Qed.

Lemma str_of_Z_nonempty (z : Z) : str_of_Z z <> "".
Proof.
  unfold str_of_Z. destruct (z <? 0); [discriminate|].
  simpl. destruct (z <? 10); [discriminate | apply append_char_nonempty].
Qed.

(** C6: an inactive user is refused with 403 by Login whatever the
    password, by Refresh with a valid refresh token for that user, and by
    ResetPassword with a valid password-reset token for that user. *)
Theorem inactive_gate (st : St) (u : User) (Hin : is_active u = false) :
  (forall e pw, find_by_email (users st) (normalize_email e) = Some u ->
     login_user_service dbB e pw st = (Ok (fail_resp HTTP_403_FORBIDDEN USER_INACTIVE), st))
  /\ (forall tok p,
        jwt_decode dbB (strip_bearer tok) (now st) = JoseOk p ->
        py_get p "type" = Some (JStr "refresh") ->
        py_get p "user_id" = Some (JStr (str_of_Z (id u))) ->
        py_get p "email" = Some (JStr (email u)) -> email u <> "" ->
        find_by_email (users st) (email u) = Some u ->
        refresh_token_service dbB tok st
          = (Ok (fail_resp HTTP_403_FORBIDDEN USER_INACTIVE), st))
  /\ (forall tok np p,
        jwt_decode dbB (strip_bearer tok) (now st) = JoseOk p ->
        py_get p "type" = Some (JStr "password_reset") ->
        py_get p "user_id" = Some (JStr (str_of_Z (id u))) ->
        py_get p "email" = Some (JStr (email u)) -> email u <> "" ->
        find_by_email (users st) (email u) = Some u ->
        reset_password_service dbB tok np st
          = (Ok (fail_resp HTTP_403_FORBIDDEN USER_INACTIVE), st)).
Proof.
  split; [|split].
  - intros e pw H. exact (login_inactive_user e pw st u H Hin).
  - intros tok p Hdec Hty Huid Hem Hne Hfind.
    apply (refresh_resolved_inactive tok st p (email u) u Hdec Hty); auto.
    rewrite Huid. apply nonempty_truthy, str_of_Z_nonempty.
  - intros tok np p Hdec Hty Huid Hem Hne Hfind.
    rewrite (reset_password_resolved tok np st p (JStr (str_of_Z (id u))) (email u) u
               Hdec Hty Huid (nonempty_truthy _ (str_of_Z_nonempty _)) Hem Hne Hfind).
    simpl py_str. rewrite String.eqb_refl, Hin. reflexivity.
Qed.

(** C4: when the [email] claim of a verified password-reset token resolves
    to a user whose id, as a string, differs from the [user_id] claim,
    ResetPassword answers 400 and leaves the store unchanged. *)
Theorem reset_cross_check (tok np : string) (st : St) (p : payload)
  (uid : jval) (e : string) (u : User)
  (Hdec : jwt_decode dbB (strip_bearer tok) (now st) = JoseOk p)
  (Hty : py_get p "type" = Some (JStr "password_reset"))
  (Huid : py_get p "user_id" = Some uid) (Htr : truthy (Some uid) = true)
  (Hem : py_get p "email" = Some (JStr e)) (Hne : e <> "")
  (Hfind : find_by_email (users st) e = Some u)
  (Hmis : str_of_Z (id u) <> py_str uid) :
  reset_password_service dbB tok np st
  = (Ok (fail_resp HTTP_400_BAD_REQUEST INVALID_REFRESH_TOKEN), st).
Proof.
  rewrite (reset_password_resolved tok np st p uid e u Hdec Hty Huid Htr Hem Hne Hfind).
  apply String.eqb_neq in Hmis. rewrite Hmis. reflexivity.
Qed.



Lemma existsb_find_none (P : User -> bool) (l : list User) (H : find P l = None) :
  existsb P l = false.
Proof.
  induction l as [|x l IH]; simpl in *; [reflexivity|].
  destruct (P x); [discriminate | exact (IH H)].
Qed.



(** A computation that leaves the state as it found it, on every path. *)
Definition reads_only {A} (m : M A) : Prop := forall st, snd (m st) = st.

Lemma ro_ret {A} (a : A) : reads_only (ret a).
Proof. intro st. reflexivity. Qed.

Lemma ro_raise {A} (e : exn) : reads_only (@raise A e).
Proof. intro st. reflexivity. Qed.

Lemma ro_lift {A} (r : res A) : reads_only (lift r).
Proof. intro st. reflexivity. Qed.

Lemma ro_utcnow : reads_only utcnow.
Proof. intro st. reflexivity. Qed.

Lemma ro_bind {A B} (m : M A) (k : A -> M B) :
  reads_only m -> (forall a, reads_only (k a)) -> reads_only (bind m k).
Proof.
  intros Hm Hk st. unfold bind.
  specialize (Hm st). destruct (m st) as [[a | e] st']; simpl in *; subst;
    [apply Hk | reflexivity].
Qed.

Lemma ro_try {A} (m : M A) (h : exn -> M A) :
  reads_only m -> (forall e, reads_only (h e)) -> reads_only (try_catch m h).
Proof.
  intros Hm Hh st. unfold try_catch.
  specialize (Hm st). destruct (m st) as [[a | e] st']; simpl in *; subst;
    [reflexivity | apply Hh].
Qed.

Lemma ro_select_email (k : jval) : reads_only (select_user_by_email dbB k).
Proof. intro st. destruct k; reflexivity. Qed.

Lemma ro_encode (p : payload) : reads_only (jwt_encode dbB p).
Proof. intro st. reflexivity. Qed.

Lemma ro_checkpw (pw h : string) : reads_only (bcrypt_checkpw dbB pw h).
Proof. intro st. simpl. destruct (bc pw h); reflexivity. Qed.

Lemma ro_render (a n l : string) : reads_only (render_email_template dbB a n l).
Proof. intro st. simpl. destruct (tp a n l); reflexivity. Qed.

Lemma ro_send (a n l : string) : reads_only (send_email dbB a n l).
Proof. intro st. simpl. destruct (so a n l); reflexivity. Qed.

Create HintDb readonly.
#[local] Hint Resolve ro_ret ro_raise ro_lift ro_utcnow ro_select_email ro_encode
  ro_checkpw ro_render ro_send : readonly.

Ltac solve_reads_only :=
  repeat first
    [ progress cbv zeta
    | solve [auto with readonly]
    | apply ro_bind; [ | intro ]
    | apply ro_try; [ | intro ]
    | match goal with
      | |- reads_only (match ?x with _ => _ end) => destruct x
      | |- reads_only (if ?c then _ else _) => destruct c
      end ].

Lemma ro_access_token (d : payload) : reads_only (create_access_token dbB d).
Proof. unfold create_access_token. solve_reads_only. Qed.

Lemma ro_refresh_token (d : payload) : reads_only (create_refresh_token dbB d).
Proof. unfold create_refresh_token. solve_reads_only. Qed.

Lemma ro_reset_token (d : payload) : reads_only (create_password_reset_token dbB d).
Proof. unfold create_password_reset_token. solve_reads_only. Qed.

Lemma ro_verify_password (pw h : string) : reads_only (verify_password dbB pw h).
Proof. unfold verify_password. solve_reads_only. Qed.

#[local] Hint Resolve ro_access_token ro_refresh_token ro_reset_token
  ro_verify_password : readonly.

(** C10: Login, Refresh and ForgetPassword never write to the store: on
    every path, success or failure, the state after the call is the state
    before it. *)
Theorem stateless_workflows :
  (forall e pw st, snd (login_user_service dbB e pw st) = st)
  /\ (forall tok st, snd (refresh_token_service dbB tok st) = st)
  /\ (forall e st, snd (forget_password_service dbB e st) = st).
Proof.
  split; [|split].
  - intros e pw. unfold login_user_service, login_user_body, get_user_by_email_for_login.
    change (reads_only (try_catch (login_user_body dbB e pw) (fun _ => ret internal_error_resp))).
    unfold login_user_body, get_user_by_email_for_login. solve_reads_only.
  - intros tok. unfold refresh_token_service, refresh_token_body, get_user_by_email_for_login.
    change (reads_only (try_catch (refresh_token_body dbB tok)
              (fun _ => ret (fail_resp HTTP_401_UNAUTHORIZED INVALID_REFRESH_TOKEN)))).
    unfold refresh_token_body, get_user_by_email_for_login. solve_reads_only.
  - intros e. 
    change (reads_only (try_catch (forget_password_body dbB e) (fun _ => ret internal_error_resp))).
    unfold forget_password_body, get_user_by_email_for_password_reset. solve_reads_only.
Qed.

End DbProps.

(** ** Witnesses: the theorems above at concrete inputs *)

Lemma login_anti_enumeration_witness :
  fst (login_user_service demo_backend "zed@b.com" "anything" demo_st)
    = Ok (fail_resp HTTP_401_UNAUTHORIZED INVALID_EMAIL_OR_PASSWORD)
  /\ fst (login_user_service demo_backend " Ann@B.com" "wrong" demo_st)
     = fst (login_user_service demo_backend "zed@b.com" "anything" demo_st).
Proof.
  apply (login_anti_enumeration demo_parse demo_sign demo_hash demo_check demo_template
           demo_smtp demo_st "zed@b.com" "anything" " Ann@B.com" "wrong" demo_user_id1).
  - vm_compute. reflexivity.
  - vm_compute. reflexivity.
  - reflexivity.
  - vm_compute. discriminate.
Defined.

Lemma login_inactive_observable_witness :
  fst (login_user_service demo_backend "bob@b.com" "pw" demo_st)
    = Ok (fail_resp HTTP_403_FORBIDDEN USER_INACTIVE)
  /\ fst (login_user_service demo_backend "zed@b.com" "pw" demo_st)
    = Ok (fail_resp HTTP_401_UNAUTHORIZED INVALID_EMAIL_OR_PASSWORD)
  /\ fst (login_user_service demo_backend "bob@b.com" "pw" demo_st)
     <> fst (login_user_service demo_backend "zed@b.com" "pw" demo_st).
Proof.
  apply (login_inactive_observable demo_parse demo_sign demo_hash demo_check demo_template
           demo_smtp demo_st "bob@b.com" "pw" "zed@b.com" "pw" demo_inactive).
  - vm_compute. reflexivity.
  - reflexivity.
  - vm_compute. reflexivity.
Defined.

Lemma inactive_gate_witness :
  login_user_service demo_backend "bob@b.com" "pw" demo_st
    = (Ok (fail_resp HTTP_403_FORBIDDEN USER_INACTIVE), demo_st).
Proof.
  apply (proj1 (inactive_gate demo_parse demo_sign demo_hash demo_check demo_template
                  demo_smtp demo_st demo_inactive eq_refl)).
  vm_compute. reflexivity.
Defined.

Lemma reset_cross_check_witness :
  reset_password_service demo_backend "signed.reset.bad" "NewPass99" demo_st
  = (Ok (fail_resp HTTP_400_BAD_REQUEST INVALID_REFRESH_TOKEN), demo_st).
Proof.
  apply (reset_cross_check demo_parse demo_sign demo_hash demo_check demo_template
           demo_smtp "signed.reset.bad" "NewPass99" demo_st
           (demo_claims "password_reset" "7" "ann@b.com") (JStr "7") "ann@b.com"
           demo_user_id1).
  - vm_compute. reflexivity.
  - reflexivity.
  - reflexivity.
  - reflexivity.
  - reflexivity.
  - discriminate.
  - vm_compute. reflexivity.
  - intro H. vm_compute in H. discriminate.
Defined.





(** * Further properties of the handler, the services and the helpers *)

Lemma py_get_dict_set_same (d : payload) (k : string) (v : jval) :
  py_get (dict_set d k v) k = Some v.
Proof.
  induction d as [|[k' v'] d IH]; simpl.
  - rewrite String.eqb_refl. reflexivity.
  - destruct (String.eqb_spec k k') as [->|Hne]; simpl.
    + rewrite String.eqb_refl. reflexivity.
    + apply String.eqb_neq in Hne. rewrite Hne. exact IH.
Qed.

Lemma py_get_dict_set_other (d : payload) (k k' : string) (v : jval) (H : k' <> k) :
  py_get (dict_set d k v) k' = py_get d k'.
Proof.
  induction d as [|[k0 v0] d IH]; simpl.
  - apply String.eqb_neq in H. rewrite H. reflexivity.
  - destruct (String.eqb_spec k k0) as [->|Hne]; simpl.
    + apply String.eqb_neq in H. rewrite H. reflexivity.
    + destruct (String.eqb k' k0); [reflexivity | exact IH].
Qed.

Lemma strip_bearer_plain (tok : string) (H : String.prefix "Bearer " tok = false) :
  strip_bearer tok = tok.
Proof. unfold strip_bearer. rewrite H. reflexivity. Qed.

Lemma substring_full (s : string) : substring 0 (String.length s) s = s.
Proof. induction s as [|c s IH]; simpl; [reflexivity | rewrite IH; reflexivity]. Qed.

Lemma strip_bearer_prefixed (tok : string) : strip_bearer ("Bearer " ++ tok) = tok.
Proof.
  unfold strip_bearer.
  replace (String.prefix "Bearer " ("Bearer " ++ tok)) with true
    by (destruct tok; reflexivity).
  simpl.
  replace (String.length tok + 0)%nat with (String.length tok) by lia.
  rewrite Nat.sub_0_r. apply substring_full.
Qed.

(** [jwt_decode] of a token whose claims carry an integer [iat],
    [exp = e] and no [nbf]. *)
Lemma jwt_decode_exp (b : Backend) (tok : string) (p : payload) (i e t : Z)
  (Hp : jwt_parse b tok = Some p) (Hiat : py_get p "iat" = Some (JInt i))
  (Hnbf : py_get p "nbf" = None) (Hexp : py_get p "exp" = Some (JInt e)) :
  jwt_decode b tok t = if e <? t then ExpiredSignatureError else JoseOk p.
Proof. unfold jwt_decode, read_claim. rewrite Hp, Hiat, Hnbf, Hexp. reflexivity. Qed.

Lemma access_claims_get (d : payload) (t : Z) (k : string)
  (Hk1 : k <> "exp") (Hk2 : k <> "iat") :
  py_get (access_claims d t) k = py_get d k.
Proof.
  unfold access_claims. rewrite py_get_dict_set_other by exact Hk2.
  apply py_get_dict_set_other. exact Hk1.
Qed.

Lemma access_claims_iat (d : payload) (t : Z) :
  py_get (access_claims d t) "iat" = Some (JInt t).
Proof.
  unfold access_claims. apply py_get_dict_set_same.
Qed.

Lemma access_claims_exp (d : payload) (t : Z) :
  py_get (access_claims d t) "exp" = Some (JInt (t + 1800)).
Proof.
  unfold access_claims. rewrite py_get_dict_set_other by discriminate.
  apply py_get_dict_set_same.
Qed.

Lemma refresh_claims_get (d : payload) (t : Z) (k : string)
  (Hk1 : k <> "exp") (Hk2 : k <> "iat") (Hk3 : k <> "type") :
  py_get (refresh_claims d t) k = py_get d k.
Proof.
  unfold refresh_claims. rewrite py_get_dict_set_other by exact Hk3.
  rewrite py_get_dict_set_other by exact Hk2. apply py_get_dict_set_other. exact Hk1.
Qed.

Lemma refresh_claims_iat (d : payload) (t : Z) :
  py_get (refresh_claims d t) "iat" = Some (JInt t).
Proof.
  unfold refresh_claims. rewrite py_get_dict_set_other by discriminate.
  apply py_get_dict_set_same.
Qed.

Lemma refresh_claims_exp (d : payload) (t : Z) :
  py_get (refresh_claims d t) "exp" = Some (JInt (t + 604800)).
Proof.
  unfold refresh_claims. do 2 (rewrite py_get_dict_set_other by discriminate).
  apply py_get_dict_set_same.
Qed.

Lemma refresh_claims_type (d : payload) (t : Z) :
  py_get (refresh_claims d t) "type" = Some (JStr "refresh").
Proof. apply py_get_dict_set_same. Qed.

Lemma reset_claims_get (d : payload) (t : Z) (k : string)
  (Hk1 : k <> "exp") (Hk2 : k <> "iat") (Hk3 : k <> "type") :
  py_get (reset_claims d t) k = py_get d k.
Proof.
  unfold reset_claims. rewrite py_get_dict_set_other by exact Hk3.
  rewrite py_get_dict_set_other by exact Hk2. apply py_get_dict_set_other. exact Hk1.
Qed.

Lemma reset_claims_iat (d : payload) (t : Z) :
  py_get (reset_claims d t) "iat" = Some (JInt t).
Proof.
  unfold reset_claims. rewrite py_get_dict_set_other by discriminate.
  apply py_get_dict_set_same.
Qed.

Lemma reset_claims_exp (d : payload) (t : Z) :
  py_get (reset_claims d t) "exp" = Some (JInt (t + 3600)).
Proof.
  unfold reset_claims. do 2 (rewrite py_get_dict_set_other by discriminate).
  apply py_get_dict_set_same.
Qed.



Lemma create_access_token_eq (b : Backend) (d : payload) (st : St) :
  create_access_token b d st = jwt_encode b (access_claims d (now st)) st.
Proof. reflexivity. Qed.

Lemma create_refresh_token_eq (b : Backend) (d : payload) (st : St) :
  create_refresh_token b d st = jwt_encode b (refresh_claims d (now st)) st.
Proof. reflexivity. Qed.

Lemma create_password_reset_token_eq (b : Backend) (d : payload) (st : St) :
  create_password_reset_token b d st = jwt_encode b (reset_claims d (now st)) st.
Proof. reflexivity. Qed.

Lemma access_token_decodes (b : Backend) (Hrt : round_trips b) (d : payload) (st st' : St)
  (tok : string) (H : create_access_token b d st = (Ok tok, st')) :
  jwt_parse b (strip_bearer tok) = Some (access_claims d (now st)).
Proof. rewrite create_access_token_eq in H. exact (Hrt _ _ _ _ H). Qed.

Lemma refresh_token_decodes (b : Backend) (Hrt : round_trips b) (d : payload) (st st' : St)
  (tok : string) (H : create_refresh_token b d st = (Ok tok, st')) :
  jwt_parse b (strip_bearer tok) = Some (refresh_claims d (now st)).
Proof. rewrite create_refresh_token_eq in H. exact (Hrt _ _ _ _ H). Qed.

Lemma reset_token_decodes (b : Backend) (Hrt : round_trips b) (d : payload) (st st' : St)
  (tok : string) (H : create_password_reset_token b d st = (Ok tok, st')) :
  jwt_parse b (strip_bearer tok) = Some (reset_claims d (now st)).
Proof. rewrite create_password_reset_token_eq in H. exact (Hrt _ _ _ _ H). Qed.

Lemma access_token_decode_at (b : Backend) (Hrt : round_trips b) (d : payload)
  (Hnbf : py_get d "nbf" = None) (st st' : St) (tok : string) (t' : Z)
  (H : create_access_token b d st = (Ok tok, st')) :
  jwt_decode b (strip_bearer tok) t'
  = if now st + 1800 <? t' then ExpiredSignatureError else JoseOk (access_claims d (now st)).
Proof.
  apply jwt_decode_exp with (i := now st).
  - exact (access_token_decodes b Hrt d st st' tok H).
  - apply access_claims_iat.
  - rewrite access_claims_get by discriminate. exact Hnbf.
  - apply access_claims_exp.
Qed.

Lemma refresh_token_decode_at (b : Backend) (Hrt : round_trips b) (d : payload)
  (Hnbf : py_get d "nbf" = None) (st st' : St) (tok : string) (t' : Z)
  (H : create_refresh_token b d st = (Ok tok, st')) :
  jwt_decode b (strip_bearer tok) t'
  = if now st + 604800 <? t' then ExpiredSignatureError else JoseOk (refresh_claims d (now st)).
Proof.
  apply jwt_decode_exp with (i := now st).
  - exact (refresh_token_decodes b Hrt d st st' tok H).
  - apply refresh_claims_iat.
  - rewrite refresh_claims_get by discriminate. exact Hnbf.
  - apply refresh_claims_exp.
Qed.

Lemma reset_token_decode_at (b : Backend) (Hrt : round_trips b) (d : payload)
  (Hnbf : py_get d "nbf" = None) (st st' : St) (tok : string) (t' : Z)
  (H : create_password_reset_token b d st = (Ok tok, st')) :
  jwt_decode b (strip_bearer tok) t'
  = if now st + 3600 <? t' then ExpiredSignatureError else JoseOk (reset_claims d (now st)).
Proof.
  apply jwt_decode_exp with (i := now st).
  - exact (reset_token_decodes b Hrt d st st' tok H).
  - apply reset_claims_iat.
  - rewrite reset_claims_get by discriminate. exact Hnbf.
  - apply reset_claims_exp.
Qed.

(** X1: with a signer/verifier pair that round-trips and claims without
    [nbf], a token from [create_access_token] at time [t] passes
    [verify_token] up to and including second [t + 1800] and is "Token has
    expired" after it; a refresh token passes [verify_refresh_token] up to
    [t + 604800] and is then "Refresh token has expired"; a password-reset
    token passes [verify_token] up to [t + 3600]. *)
Theorem token_lifetimes (b : Backend) (Hrt : round_trips b) (d : payload)
  (Hnbf : py_get d "nbf" = None) (st : St) (t' : Z) :
  (forall tok st', create_access_token b d st = (Ok tok, st') ->
     verify_token b t' tok
     = if now st + 1800 <? t' then Raise (HTTPException 401 "Token has expired")
       else Ok (access_claims d (now st))) /\
  (forall tok st', create_refresh_token b d st = (Ok tok, st') ->
     verify_refresh_token b t' tok
     = if now st + 604800 <? t' then Raise (HTTPException 401 "Refresh token has expired")
       else Ok (refresh_claims d (now st))) /\
  (forall tok st', create_password_reset_token b d st = (Ok tok, st') ->
     verify_token b t' tok
     = if now st + 3600 <? t' then Raise (HTTPException 401 "Token has expired")
       else Ok (reset_claims d (now st))).
Proof.
  split; [|split]; intros tok st' H.
  - unfold verify_token. rewrite (access_token_decode_at b Hrt d Hnbf st st' tok t' H).
    destruct (now st + 1800 <? t'); reflexivity.
  - unfold verify_refresh_token. rewrite (refresh_token_decode_at b Hrt d Hnbf st st' tok t' H).
    destruct (now st + 604800 <? t'); [reflexivity|].
    rewrite refresh_claims_type. reflexivity.
  - unfold verify_token. rewrite (reset_token_decode_at b Hrt d Hnbf st st' tok t' H).
    destruct (now st + 3600 <? t'); reflexivity.
Qed.


(** X3: the "Bearer " prefix is optional: [verify_token] and
    [verify_refresh_token] give the same answer on ["Bearer " ++ tok] as on
    [tok]. *)
Theorem bearer_prefix_transparent (b : Backend) (t : Z) (tok : string)
  (Hplain : String.prefix "Bearer " tok = false) :
  verify_token b t ("Bearer " ++ tok) = verify_token b t tok /\
  verify_refresh_token b t ("Bearer " ++ tok) = verify_refresh_token b t tok.
Proof.
  unfold verify_token, verify_refresh_token.
  rewrite strip_bearer_prefixed, (strip_bearer_plain tok Hplain). split; reflexivity.
Qed.

Lemma payload_eqb_eq (p q : payload) : payload_eqb p q = true -> p = q.
Proof.
  revert q; induction p as [|[k v] p IH]; intros [|[k' v'] q]; simpl; try discriminate.
  - reflexivity.
  - intro H. apply andb_prop in H as [Hk H]. apply andb_prop in H as [Hv Hp].
    apply String.eqb_eq in Hk. apply IH in Hp. subst.
    destruct v, v'; simpl in Hv; try discriminate.
    + apply String.eqb_eq in Hv. subst. reflexivity.
    + apply Z.eqb_eq in Hv. subst. reflexivity.
    + apply Bool.eqb_prop in Hv. subst. reflexivity.
    + reflexivity.
Qed.

Lemma single_signer_round_trips (p0 : payload) : round_trips (single_signer p0).
Proof.
  intros p s tok s' H. simpl in H.
  destruct (payload_eqb p p0) eqn:E; [|discriminate].
  apply payload_eqb_eq in E. inversion H; subst. reflexivity.
Qed.

(** X4: [get_user_id_from_token] and [get_user_email_from_token] read back
    the [user_id] and [email] that the services put in an access token
    ([token_data]), until the token expires.  This is about these two
    helpers of [JWTHandler] only: [get_current_user] does not resolve such
    a token to a user (see C1). *)
Theorem token_getters_round_trip (b : Backend) (Hrt : round_trips b) (u : User)
  (Hem : email u <> "") (st st' : St) (tok : string) (t' : Z)
  (H : create_access_token b (token_data u) st = (Ok tok, st')) :
  get_user_id_from_token b t' tok
  = (if now st + 1800 <? t' then Raise (HTTPException 401 "Token has expired")
     else Ok (JStr (str_of_Z (id u)))) /\
  get_user_email_from_token b t' tok
  = (if now st + 1800 <? t' then Raise (HTTPException 401 "Token has expired")
     else Ok (JStr (email u))).
Proof.
  unfold get_user_id_from_token, get_user_email_from_token, verify_token.
  rewrite (access_token_decode_at b Hrt (token_data u) eq_refl st st' tok t' H).
  destruct (now st + 1800 <? t'); [split; reflexivity|].
  rewrite !access_claims_get by discriminate.
  pose proof (str_of_Z_nonempty (id u)) as Hz.
  apply String.eqb_neq in Hz, Hem. simpl. rewrite Hz, Hem. split; reflexivity.
Qed.

(** X5: on a row of [Users] (which maps no [role_id] or [role]),
    [check_permission(p)]'s checker raises the AttributeError that its
    [except Exception] turns into 403 "Access denied: Could not verify
    permissions", whatever the permission and the row. *)
Theorem permission_checker_users_row (perm : string) (u : User) :
  permission_checker perm (user_obj u)
  = Raise (HTTPException 403 "Access denied: Could not verify permissions").
Proof. reflexivity. Qed.

(** X6: for a principal with a truthy [role_id], an [email] and a
    non-empty string role name, the checker lets through every permission
    for the roles management and admin (in any letter case), lets sales and
    staff through exactly for product_read, product_category_read and
    supplier_read, and otherwise raises 403 "Access denied: Permission
    '<p>' required" (also for permissions absent from the map). *)
Theorem permission_by_role (perm : string) (cu rid : pyobj) (rn : string)
  (Hrid : getattr_opt cu "role_id" = Some rid) (Htr : obj_truthy rid = true)
  (Hem : getattr_opt cu "email" <> None)
  (Hname : getattr_default (getattr_default cu "role") "name" = OStr rn) (Hrn : rn <> "") :
  permission_checker perm cu
  = if orb (str_in (lower rn) ["management"; "admin"])
           (andb (str_in perm ["product_read"; "product_category_read"; "supplier_read"])
                 (str_in (lower rn) ["sales"; "staff"]))
    then Ok cu else Raise (permission_denied perm).
Proof.
  unfold permission_checker, permission_checker_body.
  rewrite Hrid, Htr, Hname. cbn beta iota delta [negb obj_truthy].
  rewrite (proj2 (String.eqb_neq rn "") Hrn). cbn beta iota delta [negb].
  unfold with_email. destruct (getattr_opt cu "email") as [e|]; [|congruence].
  destruct (str_in (lower rn) ["management"; "admin"]) eqn:Hma; [reflexivity|].
  unfold str_in in Hma. simpl in Hma.
  apply orb_false_iff in Hma as [Hm Ha]. apply orb_false_iff in Ha as [Ha _].
  cbn beta iota delta [orb].
  unfold map_get, PERMISSION_ROLE_MAP, str_in.
  repeat match goal with
         | |- context [String.eqb ?p ?k] =>
             is_var p; destruct (String.eqb_spec p k) as [->|?]; simpl
         end;
  rewrite ?Hm, ?Ha; simpl; try congruence;
  try (destruct (String.eqb (lower rn) "sales"), (String.eqb (lower rn) "staff"); reflexivity).
Qed.






Lemma lstrip_spaces (s : string) (H : forallb is_space (list_ascii_of_string s) = true) :
  lstrip s = "".
Proof.
  induction s as [|c s IH]; simpl in *; [reflexivity|].
  apply andb_prop in H as [Hc Hs]. rewrite Hc. exact (IH Hs).
Qed.

Lemma strip_spaces (s : string) (H : forallb is_space (list_ascii_of_string s) = true) :
  strip s = "".
Proof. unfold strip. rewrite (lstrip_spaces s H). reflexivity. Qed.


(** [lstrip] on the characters of a string. *)
Fixpoint lstrip_chars (l : list ascii) : list ascii :=
  match l with
  | [] => []
  | c :: l' => if is_space c then lstrip_chars l' else l
  end.

Lemma lstrip_chars_eq (s : string) :
  list_ascii_of_string (lstrip s) = lstrip_chars (list_ascii_of_string s).
Proof. induction s as [|c s IH]; simpl; [reflexivity|]. destruct (is_space c); auto. Qed.

Lemma rev_string_chars (s : string) :
  list_ascii_of_string (rev_string s) = rev (list_ascii_of_string s).
Proof. apply list_ascii_of_string_of_list_ascii. Qed.

Lemma strip_chars (s : string) :
  list_ascii_of_string (strip s)
  = rev (lstrip_chars (rev (lstrip_chars (list_ascii_of_string s)))).
Proof. unfold strip. rewrite rev_string_chars, lstrip_chars_eq, rev_string_chars, lstrip_chars_eq. reflexivity. Qed.

Lemma lstrip_chars_idem (l : list ascii) : lstrip_chars (lstrip_chars l) = lstrip_chars l.
Proof.
  induction l as [|c l IH]; simpl; [reflexivity|].
  destruct (is_space c) eqn:E; [exact IH | simpl; rewrite E; reflexivity].
Qed.

Lemma lstrip_chars_length (l : list ascii) : (length (lstrip_chars l) <= length l)%nat.
Proof. induction l as [|c l IH]; simpl; [lia|]. destruct (is_space c); simpl; lia. Qed.

Lemma lstrip_chars_decomp (l : list ascii) : exists sp, l = (sp ++ lstrip_chars l)%list.
Proof.
  induction l as [|c l [sp IH]]; simpl; [exists []; reflexivity|].
  destruct (is_space c); [exists (c :: sp); simpl; rewrite <- IH; reflexivity | exists []; reflexivity].
Qed.

Lemma lstrip_chars_app_fix (x y : list ascii) (H : lstrip_chars (x ++ y) = (x ++ y)%list) :
  lstrip_chars x = x.
Proof.
  destruct x as [|c x]; simpl in *; [reflexivity|].
  destruct (is_space c); [|reflexivity].
  exfalso. pose proof (lstrip_chars_length (x ++ y)) as L. rewrite H in L. simpl in L. lia.
Qed.

Lemma strip_chars_idem (l : list ascii) :
  rev (lstrip_chars (rev (lstrip_chars (rev (lstrip_chars (rev (lstrip_chars l)))))))
  = rev (lstrip_chars (rev (lstrip_chars l))).
Proof.
  set (a := lstrip_chars l). assert (Ha : lstrip_chars a = a) by apply lstrip_chars_idem.
  set (b := lstrip_chars (rev a)). assert (Hb : lstrip_chars b = b) by apply lstrip_chars_idem.
  destruct (lstrip_chars_decomp (rev a)) as [sp Hsp]. fold b in Hsp.
  assert (Ha' : a = (rev b ++ rev sp)%list).
  { rewrite <- (rev_involutive a), Hsp, rev_app_distr. reflexivity. }
  rewrite Ha' in Ha. apply lstrip_chars_app_fix in Ha.
  rewrite Ha, rev_involutive, Hb. reflexivity.
Qed.

Lemma strip_idem (s : string) : strip (strip s) = strip s.
Proof.
  assert (E : list_ascii_of_string (strip (strip s)) = list_ascii_of_string (strip s))
    by (rewrite !strip_chars; apply strip_chars_idem).
  rewrite <- (string_of_list_ascii_of_string (strip (strip s))), E.
  apply string_of_list_ascii_of_string.
Qed.

(** X9: [TypeCoercion.coerce_str]: a string of whitespace (or [""]) gives
    the default; with no default, coercing an already coerced string gives
    it back unchanged; [None], [False], [0] and any falsy object give the
    default. *)
Theorem coerce_str_props (s x : string) (d : option string) :
  (forallb is_space (list_ascii_of_string s) = true -> coerce_str (VStr s) d = d) /\
  (coerce_str (VStr s) None = Some x -> coerce_str (VStr x) None = Some x) /\
  (forall v, match v with
             | VNone | VBool false | VInt 0 | VOther _ false => True
             | _ => False
             end -> coerce_str v d = d).
Proof.
  split; [|split].
  - intros Hsp. destruct s as [|c s']; [reflexivity|].
    cbv beta iota zeta delta [coerce_str]. rewrite (strip_spaces _ Hsp). reflexivity.
  - intros H. assert (Hx : x = strip s /\ x <> "").
    { destruct s as [|c s']; [discriminate|]. cbv beta iota zeta delta [coerce_str] in H.
      destruct (String.eqb_spec (strip (String c s')) "") as [E|E]; [discriminate|].
      inversion H. subst. split; [reflexivity | exact E]. }
    destruct Hx as [-> Hne]. destruct (strip s) as [|c s'] eqn:E; [congruence|].
    cbv beta iota zeta delta [coerce_str]. rewrite <- E, strip_idem, E. reflexivity.
  - intros [| [] | [] | | ? []] Hv; simpl in Hv; try contradiction; reflexivity.
Qed.

Section DbWorkflows.
Variable jp : string -> option payload.
Variable js : payload -> string.
Variable bh : string -> string.
Variable bc : string -> string -> option bool.
Variable tp : string -> string -> string -> option string.
Variable so : string -> string -> string -> bool.

Local Abbreviation B := (dbB jp js bh bc tp so).

(** The row Register inserts, and the state after it. *)
Definition registered_user (st : St) (e pw name : string) : User :=
  mkUser (next_id st) (normalize_email e) (bh pw) (strip name) None None true false.

Definition registered_state (st : St) (e pw name : string) : St :=
  mkSt (users st ++ [registered_user st e pw name])%list (now st) (next_id st + 1).

Lemma register_fresh (st : St) (e pw name : string) (Hlen : (utf8_len pw <= 72)%nat)
  (Hnone : find_by_email (users st) (normalize_email e) = None) :
  create_user_service B e pw name st
  = (Ok (mkResp STATUS_SUCCESS HTTP_201_CREATED
           (UserAndTokens (registered_user st e pw name)
              (js (access_claims (token_data (registered_user st e pw name)) (now st)))
              (js (refresh_claims (token_data (registered_user st e pw name)) (now st))))
           USER_CREATED),
     registered_state st e pw name).
Proof.
  assert (Hex : existsb (fun x => String.eqb (email x) (normalize_email e)) (users st) = false)
    by (apply existsb_find_none; exact Hnone).
  unfold create_user_service, create_user_body, try_catch, bind, ret, get_user_by_email.
  rewrite db_lookup_email, Hnone. cbn beta iota.
  unfold hash_password, create_user. cbn [bcrypt_hashpw dbB db_backend].
  replace (Nat.ltb 72 (utf8_len pw)) with false by (symmetry; apply Nat.ltb_ge; exact Hlen).
  simpl insert_user.
  unfold db_insert_user. cbn beta iota delta [ret]. rewrite Hex. reflexivity.
Qed.

Lemma login_success (e pw : string) (st : St) (u : User)
  (H : find_by_email (users st) (normalize_email e) = Some u)
  (Ha : is_active u = true) (Hpw : bc pw (password u) = Some true) :
  login_user_service B e pw st
  = (Ok (mkResp STATUS_SUCCESS HTTP_200_OK
           (UserAndTokens u (js (access_claims (token_data u) (now st)))
                            (js (refresh_claims (token_data u) (now st))))
           LOGIN_SUCCESS), st).
Proof.
  unfold login_user_service, login_user_body, try_catch, bind, get_user_by_email_for_login.
  rewrite db_lookup_email, H, Ha. cbn beta iota delta [negb].
  rewrite db_verify_password, Hpw. reflexivity.
Qed.

Lemma find_registered (st : St) (e pw name : string)
  (Hnone : find_by_email (users st) (normalize_email e) = None) :
  find_by_email (users (registered_state st e pw name)) (normalize_email e)
  = Some (registered_user st e pw name).
Proof.
  unfold find_by_email, registered_state. cbn [users].
  rewrite (find_app_none _ _ _ Hnone). simpl. rewrite String.eqb_refl. reflexivity.
Qed.

Lemma find_reset_state (st : St) (e : string) (u : User) (h : string)
  (Hfind : find_by_email (users st) e = Some u) :
  find_by_email (users (reset_state st (id u) h)) e = Some (set_password h u).
Proof.
  unfold reset_state, find_by_email. simpl.
  rewrite (find_map_preserving (fun x => String.eqb (email x) e)).
  - fold (find_by_email (users st) e). rewrite Hfind. simpl.
    rewrite Z.eqb_refl. reflexivity.
  - intro x. cbv beta. destruct (Z.eqb (id x) (id u)); reflexivity.
Qed.

(** X10: Register followed by Login.  From a store without the normalised
    email, Register with a password of at most 72 bytes in UTF-8 (the most
    bcrypt hashes) answers 201 and appends one active, unverified row
    holding the normalised email, the hash of the password and the
    stripped name; Login with any spelling of the email that normalises
    the same, and a password bcrypt accepts against that hash, then answers
    200 with that row; a password bcrypt does not accept answers 401. *)
Theorem register_then_login (st : St) (e pw name : string) (Hlen : (utf8_len pw <= 72)%nat)
  (Hnone : find_by_email (users st) (normalize_email e) = None)
  (Hpw : bc pw (bh pw) = Some true) :
  let u := registered_user st e pw name in
  let st1 := registered_state st e pw name in
  fst (create_user_service B e pw name st)
    = Ok (mkResp STATUS_SUCCESS HTTP_201_CREATED
            (UserAndTokens u (js (access_claims (token_data u) (now st)))
                             (js (refresh_claims (token_data u) (now st)))) USER_CREATED) /\
  snd (create_user_service B e pw name st) = st1 /\
  users st1 = (users st ++ [u])%list /\
  email u = normalize_email e /\ password u = bh pw /\ full_name u = strip name /\
  is_active u = true /\ is_verified u = false /\
  (forall e', normalize_email e' = normalize_email e ->
     login_user_service B e' pw st1
     = (Ok (mkResp STATUS_SUCCESS HTTP_200_OK
              (UserAndTokens u (js (access_claims (token_data u) (now st)))
                               (js (refresh_claims (token_data u) (now st)))) LOGIN_SUCCESS), st1)) /\
  (forall e' pw', normalize_email e' = normalize_email e -> bc pw' (bh pw) <> Some true ->
     login_user_service B e' pw' st1
     = (Ok (fail_resp HTTP_401_UNAUTHORIZED INVALID_EMAIL_OR_PASSWORD), st1)).
Proof.
  intros u st1. rewrite (register_fresh st e pw name Hlen Hnone).
  do 8 (split; [reflexivity|]). split.
  - intros e' He'. rewrite (login_success e' pw st1 u); [reflexivity | | reflexivity | exact Hpw].
    rewrite He'. exact (find_registered st e pw name Hnone).
  - intros e' pw' He' Hw. apply (login_wrong_password jp js bh bc tp so e' pw' st1 u).
    + rewrite He'. exact (find_registered st e pw name Hnone).
    + reflexivity.
    + exact Hw.
Qed.

(** X11: ResetPassword followed by Login.  After a successful reset of an
    active user's password (a new password of at most 72 bytes in UTF-8)
    through a matching password-reset token, the Login workflow (with the
    user's email) accepts the new password and answers 401 to a password
    bcrypt does not accept against the new hash, the old one included.
    This concerns the Login workflow only; the access and refresh tokens
    Login returns are not accepted by [get_current_user] (see C1). *)
Theorem reset_then_login (tok np old e' : string) (st : St) (p : payload)
  (uid : jval) (u : User)
  (Hdec : jwt_decode B (strip_bearer tok) (now st) = JoseOk p)
  (Hty : py_get p "type" = Some (JStr "password_reset"))
  (Huid : py_get p "user_id" = Some uid) (Htr : truthy (Some uid) = true)
  (Hem : py_get p "email" = Some (JStr (email u))) (Hne : email u <> "")
  (Hfind : find_by_email (users st) (email u) = Some u)
  (Hmatch : str_of_Z (id u) = py_str uid) (Ha : is_active u = true)
  (He' : normalize_email e' = email u) (Hlen : (utf8_len np <= 72)%nat)
  (Hnew : bc np (bh np) = Some true) (Hold : bc old (bh np) <> Some true) :
  let st2 := reset_state st (id u) (bh np) in
  reset_password_service B tok np st = (Ok password_changed_resp, st2) /\
  fst (login_user_service B e' np st2)
    = Ok (mkResp STATUS_SUCCESS HTTP_200_OK
            (UserAndTokens (set_password (bh np) u)
               (js (access_claims (token_data (set_password (bh np) u)) (now st)))
               (js (refresh_claims (token_data (set_password (bh np) u)) (now st))))
            LOGIN_SUCCESS) /\
  fst (login_user_service B e' old st2)
    = Ok (fail_resp HTTP_401_UNAUTHORIZED INVALID_EMAIL_OR_PASSWORD).
Proof.
  intros st2.
  assert (Hf2 : find_by_email (users st2) (normalize_email e') = Some (set_password (bh np) u))
    by (rewrite He'; apply find_reset_state; exact Hfind).
  split; [|split].
  - rewrite (reset_password_resolved jp js bh bc tp so tok np st p uid (email u) u
               Hdec Hty Huid Htr Hem Hne Hfind).
    apply String.eqb_eq in Hmatch. rewrite Hmatch, Ha.
    replace (Nat.ltb 72 (utf8_len np)) with false by (symmetry; apply Nat.ltb_ge; exact Hlen).
    reflexivity.
  - rewrite (login_success e' np st2 (set_password (bh np) u) Hf2 Ha Hnew). reflexivity.
  - rewrite (login_wrong_password jp js bh bc tp so e' old st2 (set_password (bh np) u) Hf2 Ha Hold).
    reflexivity.
Qed.

(** X12: ForgetPassword gives the same 200 answer, and leaves the store
    alone, for an unknown email, an inactive user, and an active user whose
    reset e-mail renders and is accepted by the relay; for an active user
    a missing template or a refused e-mail gives 500 "Something went
    wrong" instead. *)
Theorem forget_password_outcomes (e : string) (st : St) :
  (find_by_email (users st) (normalize_email e) = None ->
   forget_password_service B e st = (Ok forget_password_ok, st)) /\
  (forall u, find_by_email (users st) (normalize_email e) = Some u -> is_active u = false ->
   forget_password_service B e st = (Ok forget_password_ok, st)) /\
  (forall u, find_by_email (users st) (normalize_email e) = Some u -> is_active u = true ->
   let name := if String.eqb (full_name u) "" then email u else full_name u in
   let link := (FRONTEND_URL ++ "/reset-password?token="
                ++ js (reset_claims (token_data u ++ [("type", JStr "password_reset")])%list
                                    (now st)))%string in
   forget_password_service B e st
   = match tp "emails/forget_password.html" name link with
     | Some body =>
         if so (email u) "Reset Your Password - University LMS" body
         then (Ok forget_password_ok, st)
         else (Ok (fail_resp HTTP_500_INTERNAL_SERVER_ERROR SOMETHING_WENT_WRONG), st)
     | None => (Ok (fail_resp HTTP_500_INTERNAL_SERVER_ERROR SOMETHING_WENT_WRONG), st)
     end).
Proof.
  unfold forget_password_service, forget_password_body, try_catch, bind, ret,
    get_user_by_email_for_password_reset.
  rewrite db_lookup_email.
  split; [|split].
  - intros H. rewrite H. reflexivity.
  - intros u H Hin. rewrite H, Hin. reflexivity.
  - intros u H Ha. rewrite H, Ha. cbn beta iota zeta delta [negb].
    unfold create_password_reset_token, bind, utcnow, ret, reset_claims.
    cbn [render_email_template send_email dbB db_backend jwt_encode].
    unfold ret. cbn beta iota.
    destruct (tp _ _ _) as [body|]; [|reflexivity].
    destruct (so _ _ _); reflexivity.
Qed.

(** X13: Refresh resolves the user by the [email] claim alone: with a
    verified, unexpired refresh token whose [email] claim names an active
    user, new tokens are issued for that user whatever (truthy) value the
    [user_id] claim holds; the store is unchanged.  The statement is about
    the Refresh workflow only: the new access token is not accepted by
    [get_current_user] (see C1). *)
Theorem refresh_by_email_only (tok e : string) (st : St) (p : payload) (u : User)
  (Hdec : jwt_decode B (strip_bearer tok) (now st) = JoseOk p)
  (Hty : py_get p "type" = Some (JStr "refresh"))
  (Htr : truthy (py_get p "user_id") = true)
  (Hem : py_get p "email" = Some (JStr e)) (Hne : e <> "")
  (Hfind : find_by_email (users st) e = Some u) (Ha : is_active u = true) :
  refresh_token_service B tok st
  = (Ok (mkResp STATUS_SUCCESS HTTP_200_OK
           (TokensOnly (js (access_claims (token_data u) (now st)))
                       (js (refresh_claims (token_data u) (now st))))
           REFRESH_TOKEN_SUCCESS), st).
Proof.
  unfold refresh_token_service, refresh_token_body, try_catch, bind, utcnow, lift, ret.
  rewrite (verify_refresh_ok B (now st) tok p Hdec Hty).
  cbn beta iota zeta.
  rewrite Hem, Htr, (nonempty_truthy e Hne). cbn beta iota delta [negb orb].
  unfold get_user_by_email_for_login. rewrite db_lookup_email, Hfind, Ha.
  reflexivity.
Qed.

(** X14: ResetPassword refuses with 400 "Invalid or expired refresh token",
    and leaves the store unchanged, a token that fails verification or has
    expired, and a verified token whose [type] claim is ["refresh"] or
    absent (a refresh or an access token). *)
Theorem reset_rejects_other_tokens (tok np : string) (st : St) :
  (jwt_decode B (strip_bearer tok) (now st) = JWTError \/
   jwt_decode B (strip_bearer tok) (now st) = ExpiredSignatureError ->
   reset_password_service B tok np st
   = (Ok (fail_resp HTTP_400_BAD_REQUEST INVALID_REFRESH_TOKEN), st)) /\
  (forall p, jwt_decode B (strip_bearer tok) (now st) = JoseOk p ->
   py_get p "type" = Some (JStr "refresh") \/ py_get p "type" = None ->
   reset_password_service B tok np st
   = (Ok (fail_resp HTTP_400_BAD_REQUEST INVALID_REFRESH_TOKEN), st)).
Proof.
  unfold reset_password_service, reset_password_body, try_catch, bind, utcnow, lift, ret,
    verify_token.
  split.
  - intros [H|H]; rewrite H; reflexivity.
  - intros p H [Ht|Ht]; rewrite H; cbn beta iota; rewrite Ht; reflexivity.
Qed.

End DbWorkflows.

Lemma yields_ret {A} (P : A -> Prop) (a : A) (H : P a) : yields P (ret a).
Proof. intros st a' st' E. inversion E. subst. exact H. Qed.

Lemma yields_raise {A} (P : A -> Prop) (e : exn) : yields P (raise e).
Proof. intros st a st' E. discriminate. Qed.

Lemma yields_any {A} (m : M A) : yields (fun _ => True) m.
Proof. intros st a st' _. exact I. Qed.

Lemma yields_bind {A B} (P : A -> Prop) (Q : B -> Prop) (m : M A) (k : A -> M B)
  (Hm : yields P m) (Hk : forall a, P a -> yields Q (k a)) :
  yields Q (bind m k).
Proof.
  intros st b st' E. unfold bind in E.
  destruct (m st) as [[a|e] st1] eqn:Em; [|discriminate].
  exact (Hk a (Hm st a st1 Em) st1 b st' E).
Qed.

Lemma yields_try {A} (P : A -> Prop) (m : M A) (h : exn -> M A)
  (Hm : yields P m) (Hh : forall e, yields P (h e)) :
  yields P (try_catch m h).
Proof.
  intros st a st' E. unfold try_catch in E.
  destruct (m st) as [[a'|e] st1] eqn:Em.
  - inversion E. subst. eapply Hm. exact Em.
  - exact (Hh e st1 a st' E).
Qed.

Ltac solve_yields :=
  repeat match goal with
  | |- yields _ (try_catch _ _) => apply yields_try; [|intro]
  | |- yields _ (bind _ _) => eapply yields_bind; [apply yields_any | intros ? _]
  | |- yields _ (ret _) => apply yields_ret; first [exact I | split; reflexivity]
  | |- yields _ (raise _) => apply yields_raise
  | |- yields _ (lift _) => intros ? ? ? ?; discriminate
  | |- yields _ (match ?x with _ => _ end) => destruct x
  | |- yields _ (if ?x then _ else _) => destruct x
  | |- yields _ (let _ := _ in _) => cbv zeta
  end.

(** X15: over any backend, every response the five auth services return
    (Register, Login, Refresh, ForgetPassword, ResetPassword) keeps its
    status through [StandardResponse.make] ("success" exactly for 200 and
    201) and has one of the codes 200, 201, 400, 401, 403, 404, 500. *)
Theorem responses_well_formed (b : Backend) :
  (forall e pw name, yields well_formed_resp (create_user_service b e pw name)) /\
  (forall e pw, yields well_formed_resp (login_user_service b e pw)) /\
  (forall tok, yields well_formed_resp (refresh_token_service b tok)) /\
  (forall e, yields well_formed_resp (forget_password_service b e)) /\
  (forall tok np, yields well_formed_resp (reset_password_service b tok np)).
Proof.
  split; [|split; [|split; [|split]]]; intros.
  - unfold create_user_service, create_user_body. solve_yields.
  - unfold login_user_service, login_user_body. solve_yields.
  - unfold refresh_token_service, refresh_token_body. solve_yields.
  - unfold forget_password_service, forget_password_body. solve_yields.
  - unfold reset_password_service. apply yields_try; [|intro; solve_yields].
    unfold reset_password_body.
    apply (yields_bind (fun v => match v with inr r => well_formed_resp r | inl _ => True end)).
    + solve_yields.
    + intros [p|r] Hr; [solve_yields | apply yields_ret; exact Hr].
Qed.

Lemma string_app_nil (s : string) : (s ++ "")%string = s.
Proof. induction s as [|c s IH]; simpl; [reflexivity | rewrite IH; reflexivity]. Qed.

Lemma string_app_assoc (x y z : string) : ((x ++ y) ++ z)%string = (x ++ (y ++ z))%string.
Proof. induction x as [|c x IH]; simpl; [reflexivity | rewrite IH; reflexivity]. Qed.

Lemma chars_app (s t : string) :
  list_ascii_of_string (s ++ t) = (list_ascii_of_string s ++ list_ascii_of_string t)%list.
Proof. induction s as [|c s IH]; simpl; [reflexivity | rewrite IH; reflexivity]. Qed.

Lemma rev_string_snoc (x : string) (d : ascii) :
  rev_string (x ++ String d "") = String d (rev_string x).
Proof.
  unfold rev_string. rewrite chars_app. simpl. rewrite rev_app_distr. reflexivity.
Qed.

Lemma digit_char (k : nat) (Hk : (k < 10)%nat) :
  nat_of_ascii (ascii_of_nat (48 + k)) = (48 + k)%nat /\ is_digit (ascii_of_nat (48 + k)) = true.
Proof.
  split; [apply Ascii.nat_ascii_embedding; lia|].
  unfold is_digit. rewrite Ascii.nat_ascii_embedding by lia.
  apply andb_true_intro. split; apply Nat.leb_le; lia.
Qed.

Lemma digit_not_space (c : ascii) (H : is_digit c = true) :
  is_int_space c = false /\ Ascii.eqb c "+"%char = false /\ Ascii.eqb c "-"%char = false.
Proof. destruct c as [[] [] [] [] [] [] [] []]; try discriminate; repeat split. Qed.

(** The digit emitted for [n mod 10]. *)
Lemma last_digit (n : Z) (Hn : 0 <= n) :
  let d := ascii_of_nat (48 + Z.to_nat (n mod 10)) in
  is_digit d = true /\ Z.of_nat (nat_of_ascii d - 48) = n mod 10.
Proof.
  intro d. assert (Hk : (Z.to_nat (n mod 10) < 10)%nat).
  { pose proof (Z.mod_pos_bound n 10 ltac:(lia)). lia. }
  destruct (digit_char _ Hk) as [E D]. split; [exact D|].
  unfold d. rewrite E. replace (48 + Z.to_nat (n mod 10) - 48)%nat with (Z.to_nat (n mod 10)) by lia.
  pose proof (Z.mod_pos_bound n 10 ltac:(lia)). lia.
Qed.

Lemma parse_digits_rev (f : nat) : forall (n : Z) (t : string),
  0 <= n < Z.of_nat f ->
  parse_digits (digits_rev f n ++ t) 0 false = parse_digits t n true.
Proof.
  induction f as [|f IH]; intros n t Hn; [lia|].
  cbn [digits_rev]. destruct (last_digit n (proj1 Hn)) as [D V].
  destruct (n <? 10) eqn:Hlt.
  - cbn [String.append parse_digits]. rewrite D, V. apply Z.ltb_lt in Hlt.
    rewrite Z.mod_small by lia. reflexivity.
  - apply Z.ltb_ge in Hlt. rewrite string_app_assoc. cbn [String.append].
    rewrite IH by (split; [apply Z.div_pos; lia | apply Z.div_lt_upper_bound; lia]).
    cbn [parse_digits]. rewrite D, V. f_equal. pose proof (Z.div_mod n 10 ltac:(lia)). lia.
Qed.

Lemma digits_rev_shape (f : nat) : forall (n : Z), 0 <= n < Z.of_nat f ->
  (exists c r, digits_rev f n = String c r /\ is_digit c = true) /\
  (exists x d, digits_rev f n = (x ++ String d "")%string /\ is_digit d = true).
Proof.
  induction f as [|f IH]; intros n Hn; [lia|].
  cbn [digits_rev]. destruct (last_digit n (proj1 Hn)) as [D _].
  destruct (n <? 10) eqn:Hlt.
  - split; [exists (ascii_of_nat (48 + Z.to_nat (n mod 10))), ""; split; [reflexivity | exact D]|].
    exists "", (ascii_of_nat (48 + Z.to_nat (n mod 10))). split; [reflexivity | exact D].
  - apply Z.ltb_ge in Hlt.
    destruct (IH (n / 10)) as [[c [r [Hc Dc]]] _].
    { split; [apply Z.div_pos; lia | apply Z.div_lt_upper_bound; lia]. }
    split.
    + rewrite Hc. exists c, (r ++ String (ascii_of_nat (48 + Z.to_nat (n mod 10))) "")%string.
      split; [reflexivity | exact Dc].
    + eexists _, _. split; [reflexivity | exact D].
Qed.

Lemma strip_fixed (s : string) (H1 : lstrip_int s = s)
  (H2 : lstrip_int (rev_string s) = rev_string s) :
  strip_int s = s.
Proof.
  unfold strip_int. rewrite H1, H2. unfold rev_string.
  rewrite list_ascii_of_string_of_list_ascii, rev_involutive.
  apply string_of_list_ascii_of_string.
Qed.

Lemma strip_digits (s : string)
  (H1 : exists c r, s = String c r /\ is_int_space c = false)
  (H2 : exists x d, s = (x ++ String d "")%string /\ is_int_space d = false) :
  strip_int s = s.
Proof.
  apply strip_fixed.
  - destruct H1 as [c [r [-> Hc]]]. simpl. rewrite Hc. reflexivity.
  - destruct H2 as [x [d [-> Hd]]]. rewrite rev_string_snoc. simpl. rewrite Hd. reflexivity.
Qed.

(** X16: [int(str(n))] is [n] for every integer [n], negative ones
    included: the conversion [str(user.id)] with which the services write
    the [user_id] claim ([token_data]) is undone by Python's [int()], the
    conversion [get_current_user] applies to the claim.  The statement is
    about the two conversions only; [get_current_user] fails after the
    conversion, at its query (see C1). *)
Theorem user_id_claim_round_trip (z : Z) : py_int (JStr (str_of_Z z)) = Some z.
Proof.
  cbn [py_int]. unfold py_int_of_string, str_of_Z.
  destruct (z <? 0) eqn:Hz.
  - apply Z.ltb_lt in Hz.
    assert (Hb : 0 <= - z < Z.of_nat (S (Z.to_nat (- z)))) by lia.
    destruct (digits_rev_shape _ _ Hb) as [[c [r [Hc Dc]]] [x [d [Hd Dd]]]].
    rewrite (strip_digits ("-" ++ digits_rev (S (Z.to_nat (- z))) (- z)))%string.
    + cbn [String.append].
      change (Ascii.eqb "-"%char "+"%char) with false.
      change (Ascii.eqb "-"%char "-"%char) with true. cbv beta iota.
      rewrite <- (string_app_nil (digits_rev _ _)), (parse_digits_rev _ _ _ Hb).
      cbn [parse_digits option_map]. f_equal. lia.
    + eexists _, _. split; [reflexivity | reflexivity].
    + rewrite Hd. exists (String "-" x), d. split; [reflexivity|].
      exact (proj1 (digit_not_space d Dd)).
  - apply Z.ltb_ge in Hz.
    assert (Hb : 0 <= z < Z.of_nat (S (Z.to_nat z))) by lia.
    destruct (digits_rev_shape _ _ Hb) as [[c [r [Hc Dc]]] [x [d [Hd Dd]]]].
    rewrite strip_digits.
    + rewrite Hc. destruct (digit_not_space c Dc) as [_ [Hp Hm]]. rewrite Hp, Hm.
      rewrite <- Hc, <- (string_app_nil (digits_rev _ _)), (parse_digits_rev _ _ _ Hb).
      reflexivity.
    + exists c, r. split; [exact Hc | exact (proj1 (digit_not_space c Dc))].
    + exists x, d. split; [exact Hd | exact (proj1 (digit_not_space d Dd))].
Qed.

Lemma map_no_match (i : Z) (h : string) (l : list User)
  (H : find (fun u => Z.eqb (id u) i) l = None) :
  map (fun u => if Z.eqb (id u) i then set_password h u else u) l = l.
Proof.
  induction l as [|x l IH]; simpl in *; [reflexivity|].
  destruct (Z.eqb (id x) i); [discriminate | rewrite (IH H); reflexivity].
Qed.

(** X17: [update_user_password] on an id with no row: the UPDATE touches
    nothing and the re-fetch's [scalar_one()] raises NoResultFound; the
    store is left as it was. *)
Theorem update_password_missing_row (jp : string -> option payload) (js : payload -> string)
  (bh : string -> string) (bc : string -> string -> option bool)
  (tp : string -> string -> string -> option string) (so : string -> string -> string -> bool)
  (st : St) (i : Z) (h : string) (H : find_by_id (users st) i = None) :
  update_user_password (dbB jp js bh bc tp so) i h st = (Raise (RuntimeError "NoResultFound"), st).
Proof.
  unfold update_user_password, bind. cbn [dbB db_backend update_users_password select_user_by_id].
  unfold db_update_users_password, db_select_user_by_id. cbn [users].
  unfold find_by_id in *. rewrite (map_no_match i h (users st) H), H.
  destruct st. reflexivity.
Qed.

(** ** Witnesses of the further properties *)

(** X18: [get_current_user] never returns a user: on every credential it
    raises an [HTTPException] 401, whose detail is "Token has expired",
    "Could not validate credentials", "Invalid token: no user_id found" or
    "Invalid token: invalid user_id format", and it leaves the store
    unchanged.  A token that verifies and carries an integer [user_id]
    reaches the query, whose [selectinload(Users.role)] raises
    [AttributeError], turned into "Could not validate credentials". *)
Theorem get_current_user_always_401 (b : Backend) (credentials : string) (st : St) :
  exists detail,
    get_current_user b credentials st = (Raise (HTTPException 401 detail), st)
    /\ In detail ["Token has expired"; "Could not validate credentials";
                  "Invalid token: no user_id found"; "Invalid token: invalid user_id format"].
Proof.
  unfold get_current_user, get_current_user_body, try_catch, bind, utcnow, lift, raise.
  unfold verify_token.
  destruct (jwt_decode b (strip_bearer credentials) (now st)) as [p| | |];
    [| eexists; split; [reflexivity | simpl; tauto] ..].
  destruct (py_get p "user_id") as [uid|].
  - destruct (negb (truthy (Some uid))).
    + eexists; split; [reflexivity | simpl; tauto].
    + destruct (py_int uid); eexists; split; (reflexivity || simpl; tauto).
  - eexists; split; [reflexivity | simpl; tauto].
Qed.

Lemma token_lifetimes_witness :
  verify_token (single_signer (access_claims (token_data demo_user_id1) 1000)) 2800 "jwt.p0"
  = Ok (access_claims (token_data demo_user_id1) 1000).
Proof.
  destruct (token_lifetimes (single_signer (access_claims (token_data demo_user_id1) 1000))
              (single_signer_round_trips _) (token_data demo_user_id1) eq_refl demo_st 2800)
    as [H _].
  exact (H "jwt.p0" demo_st eq_refl).
Defined.


Lemma bearer_prefix_transparent_witness :
  verify_token demo_backend 1000 ("Bearer " ++ "signed.access.1")
    = verify_token demo_backend 1000 "signed.access.1" /\
  verify_refresh_token demo_backend 1000 ("Bearer " ++ "signed.refresh.1")
    = verify_refresh_token demo_backend 1000 "signed.refresh.1".
Proof.
  split.
  - apply (bearer_prefix_transparent demo_backend 1000 "signed.access.1"). reflexivity.
  - apply (bearer_prefix_transparent demo_backend 1000 "signed.refresh.1"). reflexivity.
Defined.

Lemma token_getters_round_trip_witness :
  get_user_id_from_token (single_signer (access_claims (token_data demo_user_id1) 1000)) 2000 "jwt.p0"
    = Ok (JStr "1") /\
  get_user_email_from_token (single_signer (access_claims (token_data demo_user_id1) 1000)) 2000 "jwt.p0"
    = Ok (JStr "ann@b.com").
Proof.
  exact (token_getters_round_trip (single_signer (access_claims (token_data demo_user_id1) 1000))
           (single_signer_round_trips _) demo_user_id1 ltac:(vm_compute; discriminate)
           demo_st demo_st "jwt.p0" 2000 eq_refl).
Defined.

Lemma permission_by_role_witness :
  let cu := OObj [("email", OStr "sam@b.com"); ("role_id", OInt 3);
                  ("role", OObj [("name", OStr "Sales")])] in
  permission_checker "product_read" cu = Ok cu /\
  permission_checker "supplier_create" cu = Raise (permission_denied "supplier_create").
Proof.
  intro cu. split.
  - rewrite (permission_by_role "product_read" cu (OInt 3) "Sales" eq_refl eq_refl
               ltac:(discriminate) eq_refl ltac:(discriminate)).
    reflexivity.
  - rewrite (permission_by_role "supplier_create" cu (OInt 3) "Sales" eq_refl eq_refl
               ltac:(discriminate) eq_refl ltac:(discriminate)).
    reflexivity.
Defined.



Lemma register_then_login_witness :
  exists r, login_user_service demo_backend "CAT@b.com " "pw1"
              (registered_state demo_hash demo_st " Cat@B.com" "pw1" " Cat ")
            = (Ok r, registered_state demo_hash demo_st " Cat@B.com" "pw1" " Cat ")
         /\ status_code r = HTTP_200_OK.
Proof.
  destruct (register_then_login demo_parse demo_sign demo_hash demo_check demo_template demo_smtp
              demo_st " Cat@B.com" "pw1" " Cat " ltac:(vm_compute; lia) ltac:(vm_compute; reflexivity)
              ltac:(vm_compute; reflexivity))
    as (_ & _ & _ & _ & _ & _ & _ & _ & Hl & _).
  eexists. split; [apply Hl; vm_compute; reflexivity | reflexivity].
Defined.

Lemma reset_then_login_witness :
  fst (login_user_service demo_backend "Ann@b.com" "Secret123!"
         (reset_state demo_st 1 (demo_hash "NewPass1")))
  = Ok (fail_resp HTTP_401_UNAUTHORIZED INVALID_EMAIL_OR_PASSWORD).
Proof.
  destruct (reset_then_login demo_parse demo_sign demo_hash demo_check demo_template demo_smtp
              "signed.reset.1" "NewPass1" "Secret123!" "Ann@b.com" demo_st
              (demo_claims "password_reset" "1" "ann@b.com") (JStr "1") demo_user_id1
              ltac:(vm_compute; reflexivity) ltac:(vm_compute; reflexivity)
              ltac:(vm_compute; reflexivity) ltac:(vm_compute; reflexivity)
              ltac:(vm_compute; reflexivity) ltac:(vm_compute; discriminate)
              ltac:(vm_compute; reflexivity) ltac:(vm_compute; reflexivity)
              ltac:(vm_compute; reflexivity) ltac:(vm_compute; reflexivity)
              ltac:(vm_compute; lia)
              ltac:(vm_compute; reflexivity) ltac:(vm_compute; discriminate))
    as (_ & _ & H).
  exact H.
Defined.

Lemma refresh_by_email_only_witness :
  exists r, refresh_token_service demo_backend "signed.refresh.1" demo_st = (Ok r, demo_st)
         /\ status_code r = HTTP_200_OK.
Proof.
  eexists. split.
  - apply (refresh_by_email_only demo_parse demo_sign demo_hash demo_check demo_template demo_smtp
             "signed.refresh.1" "ann@b.com" demo_st (demo_claims "refresh" "1" "ann@b.com")
             demo_user_id1);
      first [vm_compute; reflexivity | vm_compute; discriminate].
  - reflexivity.
Defined.

Lemma update_password_missing_row_witness :
  update_user_password demo_backend 9 "h" demo_st = (Raise (RuntimeError "NoResultFound"), demo_st).
Proof.
  apply (update_password_missing_row demo_parse demo_sign demo_hash demo_check demo_template
           demo_smtp demo_st 9 "h").
  vm_compute. reflexivity.
Defined.
